(** * Treasury ledger and contribution status handling of the Rev server

    A shallow embedding of [shared/schema.ts] (the tables and the insert
    schemas), [server/storage.ts] ([DatabaseStorage]) and the mutating
    handlers of [server/routes.ts], followed by the properties of the
    ledger that the specification states.

    Conventions of the embedding.
    - A table is the list of its rows in insertion order; [UPDATE ... WHERE]
      is a [map], [SELECT ... WHERE] a [filter] or [find], [count] a [length].
      The treasury table, which [updateTreasury] only inserts into when it is
      empty and which is always read with [limit 1], is an [option] row.
    - A [decimal(12,2)] value is the integer number of its hundredths.  The
      code carries such values as numeral text; [parseDecimal] reads the plain
      numerals (optional sign, digits, at most two fraction digits) and every
      other text is refused by the store.  Precision overflow of the column is
      not modelled.
    - A timestamp is an integer (milliseconds); the time of the request is an
      explicit argument [now] of every operation that reads the clock.
    - An [async] method is a function from the database to an outcome and the
      database after it.  A thrown exception keeps the writes made before it:
      the handlers open no transaction. *)

From Stdlib Require Import ZArith QArith Qround List String Ascii Bool Lia Lqa.
From Stdlib Require Import DecimalString Permutation Sorted.
Import ListNotations.

Local Open Scope string_scope.
Local Open Scope Z_scope.

(** ** Numerals *)

Definition digit_of (c : ascii) : option Z :=
  let n := nat_of_ascii c in
  if (48 <=? n)%nat && (n <=? 57)%nat then Some (Z.of_nat (n - 48)) else None.

Fixpoint digits_value (s : string) (acc : Z) : option Z :=
  match s with
  | EmptyString => Some acc
  | String c rest =>
      match digit_of c with
      | Some d => digits_value rest (10 * acc + d)
      | None => None
      end
  end.

Fixpoint split_dot (s : string) : string * option string :=
  match s with
  | EmptyString => (EmptyString, None)
  | String c rest =>
      if Ascii.eqb c "."%char then (EmptyString, Some rest)
      else let (whole, frac) := split_dot rest in (String c whole, frac)
  end.

Definition unsigned_decimal (s : string) : option Z :=
  let (whole, frac) := split_dot s in
  match whole with
  | EmptyString => None
  | _ =>
      match digits_value whole 0, frac with
      | Some i, None => Some (100 * i)
      | Some i, Some f =>
          match String.length f with
          | 1%nat => option_map (fun d => 100 * i + 10 * d) (digits_value f 0)
          | 2%nat => option_map (fun d => 100 * i + d) (digits_value f 0)
          | _ => None
          end
      | None, _ => None
      end
  end.

(** The value, in hundredths, of a numeral that a [decimal(12,2)] column
    takes as it stands. *)
Definition parseDecimal (s : string) : option Z :=
  match s with
  | String "-"%char rest => option_map Z.opp (unsigned_decimal rest)
  | _ => unsigned_decimal s
  end.

(** [parseFloat] on the text of a decimal.  The handlers call it on texts the
    store has already accepted, so the not-a-number case is out of reach. *)
Definition parseFloat (s : string) : Z :=
  match parseDecimal s with
  | Some v => v
  | None => 0
  end.

(** [`${n}`] for an integer [n]. *)
Definition show_int (n : Z) : string := NilZero.string_of_int (Z.to_int n).

(** JavaScript truthiness of an optional string: [undefined], [null] and the
    empty string are falsy. *)
Definition truthy (s : option string) : bool :=
  match s with
  | Some EmptyString => false
  | Some _ => true
  | None => false
  end.

(** ** The tables of [shared/schema.ts] *)

Module User.
(** The profile columns (email, names, image) play no part in the ledger
    and are left out. *)
Record t := mk {
  id : string;
  role : string;
  totalContributed : option Z;
  currentBalance : option Z;
  lastPaymentDate : option Z;
  isActive : option bool;
  createdAt : option Z;
  updatedAt : option Z
}.
End User.

Module Contribution.
Record t := mk {
  id : Z;
  userId : string;
  amount : Z;
  paymentMethod : string;
  status : string;
  transactionId : option string;
  receiptUrl : option string;
  createdAt : option Z;
  confirmedAt : option Z
}.
End Contribution.

Module Treasury.
Record t := mk {
  id : Z;
  totalBalance : Z;
  totalContributions : option Z;
  totalWithdrawals : option Z;
  interestEarned : option Z;
  updatedAt : option Z
}.
End Treasury.

Module TreasuryAdjustment.
Record t := mk {
  id : Z;
  type : string;
  amount : Z;
  reason : string;
  adminId : string;
  createdAt : option Z
}.
End TreasuryAdjustment.

Module AuditLog.
Record t := mk {
  id : Z;
  action : string;
  details : string;
  adminId : string;
  ipAddress : option string;
  createdAt : option Z
}.
End AuditLog.

(** The database: the five tables and the [serial] sequences of the four
    that have one. *)
Record Database := mkDatabase {
  users : list User.t;
  contributions : list Contribution.t;
  treasury : option Treasury.t;
  treasuryAdjustments : list TreasuryAdjustment.t;
  auditLogs : list AuditLog.t;
  contributions_seq : Z;
  treasury_seq : Z;
  treasuryAdjustments_seq : Z;
  auditLogs_seq : Z
}.

(** ** The insert schemas

    [createInsertSchema] makes a column required when it is [notNull] without
    a default and optional otherwise; the parsed object keeps only the keys of
    the schema, so a key that was [omit]ted never reaches the store. *)

Record InsertContribution := mkInsertContribution {
  ic_userId : string;
  ic_amount : string;
  ic_paymentMethod : string;
  ic_status : option string;
  ic_transactionId : option string;
  ic_receiptUrl : option string
}.

Record InsertTreasuryAdjustment := mkInsertTreasuryAdjustment {
  ia_type : string;
  ia_amount : string;
  ia_reason : string;
  ia_adminId : string
}.

Record InsertAuditLog := mkInsertAuditLog {
  il_action : string;
  il_details : string;
  il_adminId : string;
  il_ipAddress : option string
}.

(** [Partial<Treasury>], as far as [updateTreasury] reads it. *)
Record PartialTreasury := mkPartialTreasury {
  pt_totalBalance : option Z;
  pt_totalContributions : option Z;
  pt_totalWithdrawals : option Z;
  pt_interestEarned : option Z
}.

(** ** Asynchronous methods over the database *)

Inductive Thrown :=
| ZodError
| ForeignKeyViolation
| InvalidNumeral.

Inductive Outcome (A : Type) :=
| Returned (a : A)
| Threw (e : Thrown).
Arguments Returned {A} a.
Arguments Threw {A} e.

Definition Async (A : Type) : Type := Database -> Outcome A * Database.

Definition ret {A} (a : A) : Async A := fun db => (Returned a, db).

Definition throw {A} (e : Thrown) : Async A := fun db => (Threw e, db).

Definition bind {A B} (m : Async A) (k : A -> Async B) : Async B :=
  fun db =>
    match m db with
    | (Returned a, db') => k a db'
    | (Threw e, db') => (Threw e, db')
    end.

Declare Scope async_scope.
Delimit Scope async_scope with async.
Notation "x <- m ;; k" := (bind m (fun x => k))
  (at level 61, m at next level, right associativity) : async_scope.
Notation "m ;;; k" := (bind m (fun _ => k))
  (at level 61, right associativity) : async_scope.
Local Open Scope async_scope.

(** ** [DatabaseStorage] ([server/storage.ts]) *)

Definition user_exists (uid : string) (db : Database) : bool :=
  existsb (fun u => String.eqb (User.id u) uid) (users db).

Definition with_contributions (db : Database)
    (rows : list Contribution.t) (seq : Z) : Database :=
  mkDatabase (users db) rows (treasury db) (treasuryAdjustments db)
    (auditLogs db) seq (treasury_seq db) (treasuryAdjustments_seq db)
    (auditLogs_seq db).

Definition with_treasury (db : Database)
    (row : option Treasury.t) (seq : Z) : Database :=
  mkDatabase (users db) (contributions db) row (treasuryAdjustments db)
    (auditLogs db) (contributions_seq db) seq (treasuryAdjustments_seq db)
    (auditLogs_seq db).

Definition with_treasuryAdjustments (db : Database)
    (rows : list TreasuryAdjustment.t) (seq : Z) : Database :=
  mkDatabase (users db) (contributions db) (treasury db) rows
    (auditLogs db) (contributions_seq db) (treasury_seq db) seq
    (auditLogs_seq db).

Definition with_auditLogs (db : Database)
    (rows : list AuditLog.t) (seq : Z) : Database :=
  mkDatabase (users db) (contributions db) (treasury db)
    (treasuryAdjustments db) rows (contributions_seq db) (treasury_seq db)
    (treasuryAdjustments_seq db) seq.

Definition with_users (db : Database) (rows : list User.t) : Database :=
  mkDatabase rows (contributions db) (treasury db) (treasuryAdjustments db)
    (auditLogs db) (contributions_seq db) (treasury_seq db)
    (treasuryAdjustments_seq db) (auditLogs_seq db).

(** [orderBy(desc(column))] on a nullable timestamp column: the later
    timestamp first, nulls before everything.  Among rows of equal timestamp
    the store is free; the model keeps them in insertion order, and the
    statements below rely on the order of the keys alone. *)
Definition desc (a b : option Z) : bool :=
  match a, b with
  | None, _ => true
  | Some _, None => false
  | Some x, Some y => y <=? x
  end.

Fixpoint insert_desc {A} (column : A -> option Z) (row : A) (rows : list A)
    : list A :=
  match rows with
  | [] => [row]
  | r :: rest =>
      if desc (column row) (column r) then row :: rows
      else r :: insert_desc column row rest
  end.

Definition orderBy_desc {A} (column : A -> option Z) (rows : list A) : list A :=
  fold_right (insert_desc column) [] rows.

Section Storage.

(** The clock: [new Date()], [Date.now()] and the [defaultNow()] of the
    [createdAt] and [updatedAt] columns. *)
Variable now : Z.

Definition getUser (id : string) : Async (option User.t) :=
  fun db => (Returned (find (fun u => String.eqb (User.id u) id) (users db)), db).

Definition getAllMembers : Async (list User.t) :=
  fun db =>
    (Returned
       (orderBy_desc User.createdAt
          (filter (fun u => String.eqb (User.role u) "member") (users db))),
     db).


(** [status] falls back on the column default ["pending"]; [id] comes from
    the sequence, [createdAt] from the clock, and [confirmedAt], which the
    schema omits, stays null. *)
Definition createContribution (contribution : InsertContribution)
    : Async Contribution.t :=
  fun db =>
    match parseDecimal (ic_amount contribution) with
    | None => (Threw InvalidNumeral, db)
    | Some amount =>
        if user_exists (ic_userId contribution) db then
          let newContribution :=
            Contribution.mk (contributions_seq db) (ic_userId contribution)
              amount (ic_paymentMethod contribution)
              (match ic_status contribution with
               | Some s => s
               | None => "pending"
               end)
              (ic_transactionId contribution) (ic_receiptUrl contribution)
              (Some now) None in
          (Returned newContribution,
           with_contributions db (contributions db ++ [newContribution])
             (contributions_seq db + 1))
        else (Threw ForeignKeyViolation, db)
    end.

Definition getContributionsByUser (userId : string)
    : Async (list Contribution.t) :=
  fun db =>
    (Returned
       (orderBy_desc Contribution.createdAt
          (filter (fun c => String.eqb (Contribution.userId c) userId)
             (contributions db))),
     db).

Definition getAllContributions : Async (list Contribution.t) :=
  fun db =>
    (Returned (orderBy_desc Contribution.createdAt (contributions db)), db).

Definition getTreasuryAdjustments : Async (list TreasuryAdjustment.t) :=
  fun db =>
    (Returned
       (orderBy_desc TreasuryAdjustment.createdAt (treasuryAdjustments db)),
     db).

Definition getAuditLogs : Async (list AuditLog.t) :=
  fun db => (Returned (orderBy_desc AuditLog.createdAt (auditLogs db)), db).

(** The [updateData] object applied to one row. *)
Definition set_status (status : string) (transactionId : option string)
    (c : Contribution.t) : Contribution.t :=
  Contribution.mk (Contribution.id c) (Contribution.userId c)
    (Contribution.amount c) (Contribution.paymentMethod c)
    status
    (if truthy transactionId then transactionId
     else Contribution.transactionId c)
    (Contribution.receiptUrl c) (Contribution.createdAt c)
    (if String.eqb status "confirmed" then Some now else None).

Definition updateContributionStatus (id : Z) (status : string)
    (transactionId : option string) : Async unit :=
  fun db =>
    let update (c : Contribution.t) :=
      if Contribution.id c =? id then set_status status transactionId c
      else c in
    (Returned tt,
     with_contributions db (map update (contributions db))
       (contributions_seq db)).

Definition getTreasury : Async (option Treasury.t) :=
  fun db => (Returned (treasury db), db).

Definition or_else (field : option Z) (current : Z) : Z :=
  match field with
  | Some v => v
  | None => current
  end.

Definition or_keep (field current : option Z) : option Z :=
  match field with
  | Some v => Some v
  | None => current
  end.

Definition updateTreasury (data : PartialTreasury) : Async unit :=
  existingTreasury <- getTreasury ;;
  fun db =>
    match existingTreasury with
    | Some t =>
        (Returned tt,
         with_treasury db
           (Some (Treasury.mk (Treasury.id t)
                    (or_else (pt_totalBalance data) (Treasury.totalBalance t))
                    (or_keep (pt_totalContributions data) (Treasury.totalContributions t))
                    (or_keep (pt_totalWithdrawals data) (Treasury.totalWithdrawals t))
                    (or_keep (pt_interestEarned data) (Treasury.interestEarned t))
                    (Some now)))
           (treasury_seq db))
    | None =>
        (Returned tt,
         with_treasury db
           (Some (Treasury.mk (treasury_seq db)
                    (or_else (pt_totalBalance data) 0)
                    (Some (or_else (pt_totalContributions data) 0))
                    (Some (or_else (pt_totalWithdrawals data) 0))
                    (Some (or_else (pt_interestEarned data) 0))
                    (Some now)))
           (treasury_seq db + 1))
    end.

Definition createTreasuryAdjustment (adjustment : InsertTreasuryAdjustment)
    : Async TreasuryAdjustment.t :=
  fun db =>
    match parseDecimal (ia_amount adjustment) with
    | None => (Threw InvalidNumeral, db)
    | Some amount =>
        if user_exists (ia_adminId adjustment) db then
          let newAdjustment :=
            TreasuryAdjustment.mk (treasuryAdjustments_seq db)
              (ia_type adjustment) amount (ia_reason adjustment)
              (ia_adminId adjustment) (Some now) in
          (Returned newAdjustment,
           with_treasuryAdjustments db
             (treasuryAdjustments db ++ [newAdjustment])
             (treasuryAdjustments_seq db + 1))
        else (Threw ForeignKeyViolation, db)
    end.

Definition createAuditLog (log : InsertAuditLog) : Async AuditLog.t :=
  fun db =>
    if user_exists (il_adminId log) db then
      let newLog :=
        AuditLog.mk (auditLogs_seq db) (il_action log) (il_details log)
          (il_adminId log) (il_ipAddress log) (Some now) in
      (Returned newLog,
       with_auditLogs db (auditLogs db ++ [newLog]) (auditLogs_seq db + 1))
    else (Threw ForeignKeyViolation, db).

End Storage.

(** ** Statistics ([getContributionStats]) *)

Record ContributionStats := mkContributionStats {
  totalThisMonth : Z;
  totalConfirmed : Z;
  activeMembers : Z;
  paymentRate : Q
}.

(** [n || d] on numbers: zero is falsy.  (Should the driver hand a count
    over as numeral text, [||] never takes the default and the guard [> 0]
    of [paymentRate] gives the same 0 on an empty table.) *)
Definition number_or (n d : Z) : Z := if n =? 0 then d else n.

(** [Math.round]: the nearest integer, a half going up. *)
Definition Math_round (x : Q) : Z := Qfloor (x + (1 # 2))%Q.

Definition is_confirmed (c : Contribution.t) : bool :=
  String.eqb (Contribution.status c) "confirmed".

Definition count {A} (p : A -> bool) (rows : list A) : Z :=
  Z.of_nat (List.length (filter p rows)).

Definition sum_amounts (rows : list Contribution.t) : Z :=
  fold_right (fun c acc => Contribution.amount c + acc) 0 rows.

Definition created_since (t : Z) (c : Contribution.t) : bool :=
  match Contribution.createdAt c with
  | Some at_ => t <=? at_
  | None => false
  end.

Section Statistics.

(** [new Date(now.getFullYear(), now.getMonth(), 1)]: the calendar is not
    modelled, the first instant of the current month is given. *)
Variable firstDayOfMonth : Z.

Definition getContributionStats : Async ContributionStats :=
  fun db =>
    let thisMonthResult :=
      sum_amounts
        (filter (fun c => is_confirmed c && created_since firstDayOfMonth c)
           (contributions db)) in
    let confirmedResult := count is_confirmed (contributions db) in
    let activeMembersResult :=
      count (fun u => String.eqb (User.role u) "member"
                      && match User.isActive u with
                         | Some true => true
                         | _ => false
                         end)
        (users db) in
    let totalContributionsResult := count (fun _ => true) (contributions db) in
    let totalThisMonth := thisMonthResult in
    let totalConfirmed := number_or confirmedResult 0 in
    let activeMembers := number_or activeMembersResult 0 in
    let totalContributions := number_or totalContributionsResult 1 in
    let paymentRate : Q :=
      if 0 <? totalContributions
      then ((inject_Z totalConfirmed / inject_Z totalContributions) * 100)%Q
      else 0%Q in
    (Returned
       (mkContributionStats totalThisMonth totalConfirmed activeMembers
          (inject_Z (Math_round (paymentRate * 10)%Q) / 10)%Q),
     db).

End Statistics.

(** ** The handlers of [server/routes.ts] *)

Inductive Payload :=
| ContributionJson (contribution : Contribution.t)
| AdjustmentJson (adjustment : TreasuryAdjustment.t)
| MessageJson (message : string)
| SimulationJson (success : bool) (transactionId : option string)
    (message : string).

Record Response := mkResponse {
  statusCode : Z;
  payload : Payload
}.

(** [res.json(p)] and [res.status(code).json({ message })]. *)
Definition json (p : Payload) : Response := mkResponse 200 p.

Definition status_json (code : Z) (message : string) : Response :=
  mkResponse code (MessageJson message).

(** [try { body } catch (error) { fallback }]. *)
Definition try_catch (body : Async Response) (fallback : Response)
    : Database -> Response * Database :=
  fun db =>
    match body db with
    | (Returned r, db') => (r, db')
    | (Threw _, db') => (fallback, db')
    end.

(** What a handler behind [isAuthenticated] reads of the request besides its
    body: [req.user.claims.sub] and [req.ip]. *)
Record Request := mkRequest {
  sub : string;
  ip : option string
}.

(** The JSON bodies.  A field is [None] when the body does not carry it. *)
Record ContributionBody := mkContributionBody {
  cb_amount : option string;
  cb_paymentMethod : option string;
  cb_status : option string;
  cb_transactionId : option string;
  cb_receiptUrl : option string
}.

Record StatusBody := mkStatusBody {
  sb_status : string;
  sb_transactionId : option string
}.

Record AdjustmentBody := mkAdjustmentBody {
  ab_type : option string;
  ab_amount : option string;
  ab_reason : option string
}.

Record SimulateBody := mkSimulateBody {
  contributionId : Z;
  success : bool
}.

(** [insertContributionSchema.parse({ ...req.body, userId })]. *)
Definition insertContributionSchema_parse (body : ContributionBody)
    (userId : string) : Async InsertContribution :=
  match cb_amount body, cb_paymentMethod body with
  | Some amount, Some paymentMethod =>
      ret (mkInsertContribution userId amount paymentMethod (cb_status body)
             (cb_transactionId body) (cb_receiptUrl body))
  | _, _ => throw ZodError
  end.

(** [insertTreasuryAdjustmentSchema.parse({ ...req.body, adminId })]. *)
Definition insertTreasuryAdjustmentSchema_parse (body : AdjustmentBody)
    (adminId : string) : Async InsertTreasuryAdjustment :=
  match ab_type body, ab_amount body, ab_reason body with
  | Some type, Some amount, Some reason =>
      ret (mkInsertTreasuryAdjustment type amount reason adminId)
  | _, _, _ => throw ZodError
  end.

(** [user?.role !== 'admin']. *)
Definition not_admin (user : option User.t) : bool :=
  match user with
  | Some u => negb (String.eqb (User.role u) "admin")
  | None => true
  end.

Section Routes.

Variable now : Z.

(** [POST /api/contributions]. *)
Definition post_contributions (req : Request) (body : ContributionBody)
    : Database -> Response * Database :=
  try_catch
    (let userId := sub req in
     validatedData <- insertContributionSchema_parse body userId ;;
     contribution <- createContribution now validatedData ;;
     createAuditLog now
       (mkInsertAuditLog "Payment Initiated"
          ("User initiated payment of UGX " ++ ic_amount validatedData
             ++ " via " ++ ic_paymentMethod validatedData)
          userId (ip req)) ;;;
     ret (json (ContributionJson contribution)))
    (status_json 500 "Failed to create contribution").

(** [PATCH /api/contributions/:id/status]; [id] is [parseInt(req.params.id)]. *)
Definition patch_contribution_status (req : Request) (id : Z)
    (body : StatusBody) : Database -> Response * Database :=
  try_catch
    (user <- getUser (sub req) ;;
     if not_admin user then ret (status_json 403 "Admin access required")
     else
       let status := sb_status body in
       let transactionId := sb_transactionId body in
       let contributionId := id in
       updateContributionStatus now contributionId status transactionId ;;;
       createAuditLog now
         (mkInsertAuditLog "Payment Status Updated"
            ("Updated contribution " ++ show_int contributionId
               ++ " status to " ++ status)
            (sub req) (ip req)) ;;;
       ret (json (MessageJson "Status updated successfully")))
    (status_json 500 "Failed to update contribution status").

(** [POST /api/treasury/adjust]. *)
Definition post_treasury_adjust (req : Request) (body : AdjustmentBody)
    : Database -> Response * Database :=
  try_catch
    (user <- getUser (sub req) ;;
     if not_admin user then ret (status_json 403 "Admin access required")
     else
       validatedData <- insertTreasuryAdjustmentSchema_parse body (sub req) ;;
       adjustment <- createTreasuryAdjustment now validatedData ;;
       currentTreasury <- getTreasury ;;
       let currentBalance :=
         match currentTreasury with
         | Some t => Treasury.totalBalance t
         | None => 0
         end in
       let adjustmentAmount := parseFloat (ia_amount validatedData) in
       let newBalance :=
         if String.eqb (ia_type validatedData) "deposit"
            || String.eqb (ia_type validatedData) "interest"
         then currentBalance + adjustmentAmount
         else currentBalance - adjustmentAmount in
       updateTreasury now (mkPartialTreasury (Some newBalance) None None None) ;;;
       createAuditLog now
         (mkInsertAuditLog "Treasury Adjusted"
            (ia_type validatedData ++ ": " ++ ia_amount validatedData
               ++ " - " ++ ia_reason validatedData)
            (sub req) (ip req)) ;;;
       ret (json (AdjustmentJson adjustment)))
    (status_json 500 "Failed to create treasury adjustment").

(** [POST /api/payments/simulate]. *)
Definition post_payments_simulate (req : Request) (body : SimulateBody)
    : Database -> Response * Database :=
  try_catch
    (let status := if success body then "confirmed" else "failed" in
     let transactionId :=
       if success body then Some ("TXN" ++ show_int now) else None in
     updateContributionStatus now (contributionId body) status transactionId ;;;
     ret (json (SimulationJson (success body) transactionId
                  (if success body then "Payment processed successfully"
                   else "Payment failed"))))
    (status_json 500 "Failed to simulate payment").

End Routes.

(** ** Runs of the server

    One mutating call at a time, each at its own instant.  The users table is
    written by the authentication layer ([upsertUser] on login), which lies
    outside this development: [UsersWritten] stands for any such write. *)

Inductive Call :=
| PostContributions (now : Z) (req : Request) (body : ContributionBody)
| PatchContributionStatus (now : Z) (req : Request) (id : Z) (body : StatusBody)
| PostTreasuryAdjust (now : Z) (req : Request) (body : AdjustmentBody)
| PostPaymentsSimulate (now : Z) (req : Request) (body : SimulateBody)
| UsersWritten (rows : list User.t).

Definition serve (call : Call) (db : Database) : Database :=
  match call with
  | PostContributions now req body => snd (post_contributions now req body db)
  | PatchContributionStatus now req id body =>
      snd (patch_contribution_status now req id body db)
  | PostTreasuryAdjust now req body => snd (post_treasury_adjust now req body db)
  | PostPaymentsSimulate now req body =>
      snd (post_payments_simulate now req body db)
  | UsersWritten rows => with_users db rows
  end.

Definition run (calls : list Call) (db : Database) : Database :=
  fold_left (fun d call => serve call d) calls db.

(** A fresh deployment: the ledger tables empty, the sequences at their
    first value. *)
Definition fresh (members : list User.t) : Database :=
  mkDatabase members [] None [] [] 1 1 1 1.

Inductive reachable : Database -> Prop :=
| reachable_fresh (members : list User.t) : reachable (fresh members)
| reachable_serve (call : Call) (db : Database) :
    reachable db -> reachable (serve call db).

(** ** Readings of the ledger used in the statements *)

(** The treasury balance as every reader takes it: zero while the singleton
    row does not exist. *)
Definition treasury_totalBalance (db : Database) : Z :=
  match treasury db with
  | Some t => Treasury.totalBalance t
  | None => 0
  end.




Definition find_contribution (id : Z) (db : Database) : option Contribution.t :=
  find (fun c => Contribution.id c =? id) (contributions db).

Definition is_terminal (c : Contribution.t) : bool :=
  String.eqb (Contribution.status c) "confirmed"
  || String.eqb (Contribution.status c) "failed".


(** The caller as the admin handlers look them up. *)
Definition caller_of (req : Request) (db : Database) : option User.t :=
  find (fun u => String.eqb (User.id u) (sub req)) (users db).


(** ** Fixtures: the two demo users of [routes.ts] and a few ledgers *)

Module Fixtures.

Definition admin : User.t :=
  User.mk "admin-123" "admin" (Some 0) (Some 0) None (Some true) (Some 0) (Some 0).

Definition member : User.t :=
  User.mk "member-456" "member" (Some 0) (Some 0) None (Some true) (Some 0) (Some 0).

Definition as_admin : Request := mkRequest "admin-123" (Some "10.0.0.1").

Definition as_member : Request := mkRequest "member-456" (Some "10.0.0.2").

Definition empty_ledger : Database := fresh [admin; member].

(** Scenario A up to the submission: the member has submitted 50000 via mtn. *)
Definition submitted : Database :=
  run [PostContributions 20 as_member
         (mkContributionBody (Some "50000") (Some "mtn") None None None)]
    empty_ledger.

(** The same contribution after the simulated payment went through. *)
Definition paid : Database :=
  run [PostPaymentsSimulate 30 as_member (mkSimulateBody 1 true)] submitted.


(** The opening deposit of 50000, then Scenario A through the simulation:
    a submission of 50000 that is paid. *)
Definition ledger_calls : list Call :=
  [PostTreasuryAdjust 10 as_admin
     (mkAdjustmentBody (Some "deposit") (Some "50000") (Some "opening"));
   PostContributions 20 as_member
     (mkContributionBody (Some "50000") (Some "mtn") None None None);
   PostPaymentsSimulate 30 as_member (mkSimulateBody 1 true)].

Definition funded_and_paid : Database := run ledger_calls empty_ledger.

(** The rows of contribution 1 in [submitted] and in [paid]. *)
Definition pending_row : Contribution.t :=
  Contribution.mk 1 "member-456" 5000000 "mtn" "pending" None None
    (Some 20) None.

Definition paid_row : Contribution.t :=
  Contribution.mk 1 "member-456" 5000000 "mtn" "confirmed" (Some "TXN30")
    None (Some 20) (Some 30).



(** Scenario D: the paid contribution is set to ["failed"]. *)
Definition fail : StatusBody := mkStatusBody "failed" None.












Definition submission_as_confirmed : Response * Database :=
  post_contributions 20 as_member
    (mkContributionBody (Some "50000") (Some "mtn") (Some "confirmed")
       None None)
    empty_ledger.

(** Three submissions of which one has been paid. *)
Definition one_in_three : Database :=
  run [PostContributions 21 as_member
         (mkContributionBody (Some "20000") (Some "visa") None None None);
       PostContributions 22 as_member
         (mkContributionBody (Some "7500.50") (Some "airtel") None None None);
       PostPaymentsSimulate 30 as_member (mkSimulateBody 1 true)]
    submitted.

End Fixtures.


(** ** Vocabulary of the statements *)

(** The database and the audit entry that the admin status handler leaves
    when it goes through. *)
Definition status_updated (now : Z) (db : Database) (id : Z)
    (body : StatusBody) : Database :=
  snd (updateContributionStatus now id (sb_status body)
         (sb_transactionId body) db).

Definition status_audit (now : Z) (req : Request) (db : Database) (id : Z)
    (body : StatusBody) : AuditLog.t :=
  AuditLog.mk (auditLogs_seq db) "Payment Status Updated"
    ("Updated contribution " ++ show_int id ++ " status to " ++ sb_status body)
    (sub req) (ip req) (Some now).







(** *** The statements as the specification words them *)









(** A request body that [insertTreasuryAdjustmentSchema] and the numeric
    column take: the three fields present, the amount a numeral. *)
Definition adjustment_input (body : AdjustmentBody) : option (string * Z * string) :=
  match ab_type body, ab_amount body, ab_reason body with
  | Some type, Some amount, Some reason =>
      option_map (fun a => (type, a, reason)) (parseDecimal amount)
  | _, _, _ => None
  end.

(** Rounded to one decimal place: a whole number of tenths, within half a
    tenth of the exact value. *)
Definition rounded_to_one_decimal (exact r : Q) : Prop :=
  (exists n : Z, r == n # 10)%Q
  /\ (exact - (1 # 20) <= r)%Q /\ (r <= exact + (1 # 20))%Q.

(** The adjustment row, the treasury row and the audit entry that the
    adjustment handler leaves when it goes through. *)
Definition signed_amount (type : string) (a : Z) : Z :=
  if String.eqb type "deposit" || String.eqb type "interest" then a else - a.

Definition adjustment_row (now : Z) (req : Request) (db : Database)
    (type : string) (a : Z) (reason : string) : TreasuryAdjustment.t :=
  TreasuryAdjustment.mk (treasuryAdjustments_seq db) type a reason (sub req)
    (Some now).

Definition treasury_row (now : Z) (db : Database) (newBalance : Z)
    : Treasury.t :=
  match treasury db with
  | Some t =>
      Treasury.mk (Treasury.id t) newBalance (Treasury.totalContributions t)
        (Treasury.totalWithdrawals t) (Treasury.interestEarned t) (Some now)
  | None =>
      Treasury.mk (treasury_seq db) newBalance (Some 0) (Some 0) (Some 0)
        (Some now)
  end.

(** ** The reading handlers of [server/routes.ts] *)

Inductive Listing :=
| UserJson (user : User.t)
| MembersJson (members : list User.t)
| ContributionsJson (rows : list Contribution.t)
| TreasuryJson (row : option Treasury.t)
| AdjustmentsJson (rows : list TreasuryAdjustment.t)
| AuditLogsJson (rows : list AuditLog.t)
| StatsJson (stats : ContributionStats)
| FailureJson (message : string).

Record Reading := mkReading {
  readingCode : Z;
  listing : Listing
}.

Definition reading_json (l : Listing) : Reading := mkReading 200 l.

Definition reading_status (code : Z) (message : string) : Reading :=
  mkReading code (FailureJson message).

Definition try_catch_reading (body : Async Reading) (fallback : Reading)
    : Database -> Reading * Database :=
  fun db =>
    match body db with
    | (Returned r, db') => (r, db')
    | (Threw _, db') => (fallback, db')
    end.

(** [GET /api/auth/user]: the demo user, whoever asks. *)
Definition get_auth_user : Database -> Reading * Database :=
  try_catch_reading
    (testUser <- getUser "admin-123" ;;
     match testUser with
     | Some u => ret (reading_json (UserJson u))
     | None => ret (reading_status 401 "Unauthorized")
     end)
    (reading_status 500 "Failed to fetch user").

(** [GET /api/members]. *)
Definition get_members : Database -> Reading * Database :=
  try_catch_reading
    (members <- getAllMembers ;; ret (reading_json (MembersJson members)))
    (reading_status 500 "Failed to fetch members").

(** [GET /api/contributions/user/:userId]. *)
Definition get_contributions_user (targetUserId : string)
    : Database -> Reading * Database :=
  try_catch_reading
    (contributions <- getContributionsByUser targetUserId ;;
     ret (reading_json (ContributionsJson contributions)))
    (reading_status 500 "Failed to fetch contributions").

(** [GET /api/contributions]. *)
Definition get_contributions : Database -> Reading * Database :=
  try_catch_reading
    (contributions <- getAllContributions ;;
     ret (reading_json (ContributionsJson contributions)))
    (reading_status 500 "Failed to fetch contributions").


(** [GET /api/treasury/adjustments]. *)
Definition get_treasury_adjustments : Database -> Reading * Database :=
  try_catch_reading
    (adjustments <- getTreasuryAdjustments ;;
     ret (reading_json (AdjustmentsJson adjustments)))
    (reading_status 500 "Failed to fetch treasury adjustments").

(** [GET /api/audit]. *)
Definition get_audit : Database -> Reading * Database :=
  try_catch_reading
    (logs <- getAuditLogs ;; ret (reading_json (AuditLogsJson logs)))
    (reading_status 500 "Failed to fetch audit logs").

(** [GET /api/stats]. *)
Definition get_stats (firstDayOfMonth : Z) : Database -> Reading * Database :=
  try_catch_reading
    (stats <- getContributionStats firstDayOfMonth ;;
     ret (reading_json (StatsJson stats)))
    (reading_status 500 "Failed to fetch stats").

(** ** The dashboards ([member-dashboard.tsx], [admin-dashboard.tsx])

    Of the two pages, the functions that decide what is sent to the server
    and how a row is shown.  A handler that only raises a toast sends
    nothing: [None]. *)

Module Dashboard.




(** The buttons in the last cell of a row of the admin's contributions
    table, each by the status it asks for. *)
Definition row_buttons (contribution : Contribution.t) : list string :=
  if String.eqb (Contribution.status contribution) "pending"
  then ["confirmed"; "failed"]
  else [].

(** The [mutationFn] of [updateContributionStatus]: the id that goes into
    the path and the body, [clock] being the browser's [Date.now()]. *)
Definition updateContributionStatus_mutation (clock id : Z) (status : string)
    : Z * StatusBody :=
  (id,
   mkStatusBody status
     (if String.eqb status "confirmed" then Some ("TXN" ++ show_int clock)
      else None)).

(** The sign printed before the amount of a row of the adjustments table. *)
Definition amount_sign (adjustment : TreasuryAdjustment.t) : string :=
  if String.eqb (TreasuryAdjustment.type adjustment) "deposit"
     || String.eqb (TreasuryAdjustment.type adjustment) "interest"
  then "+" else "-".




End Dashboard.

(** ** Vocabulary of the further statements *)

(** What is written once in a contribution row. *)
Definition written_once (c : Contribution.t)
    : Z * string * Z * string * option string * option Z :=
  (Contribution.id c, Contribution.userId c, Contribution.amount c,
   Contribution.paymentMethod c, Contribution.receiptUrl c,
   Contribution.createdAt c).

(** The actions under which the handlers write audit entries. *)
Definition written_actions : list string :=
  ["Payment Initiated"; "Payment Status Updated"; "Treasury Adjusted"].

(** A call that comes through [routes.ts]. *)
Definition is_request (call : Call) : bool :=
  match call with
  | UsersWritten _ => false
  | _ => true
  end.

(** The list a reading handler answers with. *)
Definition listed_contributions (out : Reading * Database)
    : list Contribution.t :=
  match listing (fst out) with
  | ContributionsJson rows => rows
  | _ => []
  end.

Definition listed_members (out : Reading * Database) : list User.t :=
  match listing (fst out) with
  | MembersJson rows => rows
  | _ => []
  end.

(** Newest first, by a nullable timestamp column. *)
Definition newest_first {A} (column : A -> option Z) (rows : list A) : Prop :=
  StronglySorted (fun a b => desc (column a) (column b) = true) rows.

Definition is_active_member (u : User.t) : bool :=
  String.eqb (User.role u) "member"
  && match User.isActive u with
     | Some true => true
     | _ => false
     end.

(** What [POST /api/contributions] needs to go through: the two required
    fields, an amount the column takes, a caller the users table knows. *)
Definition submission_accepted (req : Request) (body : ContributionBody)
    (db : Database) : bool :=
  match cb_amount body, cb_paymentMethod body with
  | Some amount, Some _ =>
      match parseDecimal amount with
      | Some _ => user_exists (sub req) db
      | None => false
      end
  | _, _ => false
  end.

(** What one call may leave behind: [written db db'] lists the shapes of
    the database after a call served on [db]. *)
Inductive written (db : Database) : Database -> Prop :=
| written_nothing : written db db
| written_users (rows : list User.t) : written db (with_users db rows)
| written_submission (c : Contribution.t) (entry : AuditLog.t) :
    Contribution.id c = contributions_seq db ->
    Contribution.confirmedAt c = None ->
    AuditLog.action entry = "Payment Initiated" ->
    written db
      (with_auditLogs
         (with_contributions db (contributions db ++ [c])
            (contributions_seq db + 1))
         (auditLogs db ++ [entry]) (auditLogs_seq db + 1))
| written_status (now id : Z) (status : string)
    (transactionId : option string) :
    written db (snd (updateContributionStatus now id status transactionId db))
| written_status_audited (now id : Z) (status : string)
    (transactionId : option string) (entry : AuditLog.t) :
    AuditLog.action entry = "Payment Status Updated" ->
    written db
      (with_auditLogs
         (snd (updateContributionStatus now id status transactionId db))
         (auditLogs db ++ [entry]) (auditLogs_seq db + 1))
| written_adjustment (now : Z) (row : TreasuryAdjustment.t) (balance : Z)
    (entry : AuditLog.t) :
    AuditLog.action entry = "Treasury Adjusted" ->
    written db
      (with_auditLogs
         (with_treasury
            (with_treasuryAdjustments db (treasuryAdjustments db ++ [row])
               (treasuryAdjustments_seq db + 1))
            (Some (treasury_row now db balance))
            (match treasury db with
             | Some _ => treasury_seq db
             | None => treasury_seq db + 1
             end))
         (auditLogs db ++ [entry]) (auditLogs_seq db + 1)).

Definition is_active (u : User.t) : bool :=
  match User.isActive u with
  | Some true => true
  | _ => false
  end.

(** The statistics a state answers with. *)
Definition stats_of (firstDayOfMonth : Z) (db : Database)
    : option ContributionStats :=
  match listing (fst (get_stats firstDayOfMonth db)) with
  | StatsJson stats => Some stats
  | _ => None
  end.


(** * Properties *)

(** ** Shared facts about the storage layer *)

Lemma find_some_exists (uid : string) (rows : list User.t) (u : User.t) :
  find (fun u => String.eqb (User.id u) uid) rows = Some u ->
  existsb (fun u => String.eqb (User.id u) uid) rows = true.
Proof.
  induction rows as [|r rows IH]; simpl; [discriminate|].
  destruct (String.eqb (User.id r) uid); auto.
Qed.

Lemma admin_caller_exists (req : Request) (db : Database) :
  not_admin (caller_of req db) = false -> user_exists (sub req) db = true.
Proof.
  unfold caller_of, user_exists.
  destruct (find _ (users db)) as [u|] eqn:E; simpl; [|discriminate].
  intros _. eapply find_some_exists; eauto.
Qed.

Lemma map_update_in (f : Contribution.t -> Contribution.t) (id : Z)
    (rows : list Contribution.t) (c : Contribution.t) :
  In c rows -> Contribution.id c = id ->
  In (f c) (map (fun r => if Contribution.id r =? id then f r else r) rows).
Proof.
  intros Hin Hid. apply in_map_iff. exists c. split; [|assumption].
  rewrite Hid, Z.eqb_refl. reflexivity.
Qed.


Lemma map_update_find (f : Contribution.t -> Contribution.t) (id : Z)
    (rows : list Contribution.t) (c : Contribution.t) :
  (forall r, Contribution.id (f r) = Contribution.id r) ->
  find (fun c => Contribution.id c =? id) rows = Some c ->
  find (fun c => Contribution.id c =? id)
    (map (fun r => if Contribution.id r =? id then f r else r) rows)
  = Some (f c).
Proof.
  intros Hf. induction rows as [|r rows IH]; simpl; [discriminate|].
  destruct (Contribution.id r =? id) eqn:E.
  - intros [= ->]. simpl. rewrite Hf, E. reflexivity.
  - intros H. simpl. rewrite E. auto.
Qed.

Lemma count_all {A} (rows : list A) :
  count (fun _ => true) rows = Z.of_nat (List.length rows).
Proof.
  unfold count. f_equal. f_equal.
  induction rows as [|r rows IH]; simpl; [reflexivity|]. now rewrite IH.
Qed.

Lemma count_nonneg {A} (p : A -> bool) (rows : list A) : 0 <= count p rows.
Proof. unfold count. lia. Qed.

Lemma count_app {A} (p : A -> bool) (xs ys : list A) :
  count p (xs ++ ys) = count p xs + count p ys.
Proof. unfold count. rewrite filter_app, length_app. lia. Qed.

(** ** What the handlers do, branch by branch *)

Section HandlerEquations.

Variables (now : Z) (req : Request) (db : Database).

Lemma patch_by_admin (id : Z) (body : StatusBody) :
  not_admin (caller_of req db) = false ->
  patch_contribution_status now req id body db
  = (json (MessageJson "Status updated successfully"),
     with_auditLogs (status_updated now db id body)
       (auditLogs db ++ [status_audit now req db id body])
       (auditLogs_seq db + 1)).
Proof.
  intros Hadmin. pose proof (admin_caller_exists _ _ Hadmin) as Hex.
  unfold caller_of in Hadmin. unfold user_exists in Hex.
  unfold patch_contribution_status, try_catch, bind, getUser,
    status_updated, updateContributionStatus, createAuditLog, ret.
  rewrite Hadmin. unfold user_exists, with_contributions. simpl.
  rewrite Hex. reflexivity.
Qed.

Lemma patch_by_other (id : Z) (body : StatusBody) :
  not_admin (caller_of req db) = true ->
  patch_contribution_status now req id body db
  = (status_json 403 "Admin access required", db).
Proof.
  intros Hother. unfold caller_of in Hother.
  unfold patch_contribution_status, try_catch, bind, getUser, ret.
  rewrite Hother. reflexivity.
Qed.

Lemma simulate_eq (body : SimulateBody) :
  post_payments_simulate now req body db
  = (json (SimulationJson (success body)
             (if success body then Some ("TXN" ++ show_int now) else None)
             (if success body then "Payment processed successfully"
              else "Payment failed")),
     snd (updateContributionStatus now (contributionId body)
            (if success body then "confirmed" else "failed")
            (if success body then Some ("TXN" ++ show_int now) else None)
            db)).
Proof. reflexivity. Qed.

End HandlerEquations.

(** ** Status updates *)

(** C10. [updateContributionStatus] rewrites every row that has the given id:
    the row takes the target status, and its [confirmedAt] becomes the
    current time when the target is ["confirmed"] and null for any other
    target, whatever it held before.  So after the update [confirmedAt] is
    non-null exactly when the status is ["confirmed"]; a confirmed
    contribution updated to another status loses its timestamp. *)
Theorem updateContributionStatus_confirmedAt
    (now id : Z) (status : string) (transactionId : option string)
    (db : Database) (c : Contribution.t) :
  In c (contributions db) ->
  Contribution.id c = id ->
  let db' := snd (updateContributionStatus now id status transactionId db) in
  let c' := set_status now status transactionId c in
  In c' (contributions db')
  /\ Contribution.status c' = status
  /\ (status = "confirmed" -> Contribution.confirmedAt c' = Some now)
  /\ (status <> "confirmed" -> Contribution.confirmedAt c' = None)
  /\ (Contribution.confirmedAt c' <> None <-> Contribution.status c' = "confirmed")
  /\ (forall r, In r (contributions db') -> Contribution.id r = id ->
        Contribution.status r = status
        /\ (Contribution.confirmedAt r <> None
            <-> Contribution.status r = "confirmed")).
Proof.
  intros Hin Hid db' c'.
  assert (Hiff : forall r, Contribution.confirmedAt (set_status now status transactionId r) <> None
                           <-> status = "confirmed").
  { intros r. simpl. destruct (String.eqb_spec status "confirmed") as [E|E].
    - split; [auto | discriminate].
    - split; [intros H; now elim H | intros H; contradiction]. }
  repeat split.
  - subst db'. simpl. now apply map_update_in.
  - intros ->. reflexivity.
  - intros Hne. simpl. destruct (String.eqb_spec status "confirmed"); [contradiction | reflexivity].
  - apply Hiff.
  - apply Hiff.
  - subst db'. simpl in H. apply in_map_iff in H as [r0 [Hr0 Hin0]].
    destruct (Contribution.id r0 =? id) eqn:E.
    + subst r. reflexivity.
    + subst r. apply Z.eqb_neq in E. contradiction.
  - subst db'. simpl in H. apply in_map_iff in H as [r0 [Hr0 Hin0]].
    destruct (Contribution.id r0 =? id) eqn:E.
    + subst r. intros Hc. apply Hiff in Hc. exact Hc.
    + subst r. apply Z.eqb_neq in E. contradiction.
  - subst db'. simpl in H. apply in_map_iff in H as [r0 [Hr0 Hin0]].
    destruct (Contribution.id r0 =? id) eqn:E.
    + subst r. intros Hc. apply Hiff. exact Hc.
    + subst r. apply Z.eqb_neq in E. contradiction.
Qed.

(** The contribution of [Fixtures.paid], confirmed at 30, is updated to
    ["failed"] at 40: the timestamp is erased. *)
Lemma updateContributionStatus_confirmedAt_witness :
  In Fixtures.paid_row (contributions Fixtures.paid)
  /\ Contribution.confirmedAt Fixtures.paid_row = Some 30
  /\ Contribution.confirmedAt (set_status 40 "failed" None Fixtures.paid_row)
     = None.
Proof.
  assert (Hin : In Fixtures.paid_row (contributions Fixtures.paid))
    by (left; reflexivity).
  split; [exact Hin|]. split; [reflexivity|].
  apply (updateContributionStatus_confirmedAt 40 1 "failed" None
           Fixtures.paid Fixtures.paid_row Hin eq_refl).
  discriminate.
Defined.



(** ** Statistics *)

Lemma number_or_zero (n : Z) : number_or n 0 = n.
Proof. unfold number_or. destruct (Z.eqb_spec n 0); congruence. Qed.

Lemma number_or_pos (n d : Z) : 0 < n -> number_or n d = n.
Proof. unfold number_or. destruct (Z.eqb_spec n 0); [lia | reflexivity]. Qed.

Lemma Math_round_tenths (p : Q) :
  rounded_to_one_decimal p (inject_Z (Math_round (p * 10)) / 10).
Proof.
  unfold rounded_to_one_decimal, Math_round.
  set (x := (p * 10 + (1 # 2))%Q).
  pose proof (Qfloor_le x) as Hle.
  pose proof (Qlt_floor x) as Hlt.
  rewrite inject_Z_plus in Hlt.
  change (inject_Z 1) with 1%Q in Hlt.
  set (n := Qfloor x) in *.
  assert (Hdiv : (inject_Z n / 10 == n # 10)%Q).
  { unfold Qdiv, Qeq. simpl. lia. }
  split; [exists n; exact Hdiv|].
  subst x. split.
  - apply Qle_shift_div_l; [reflexivity|]. lra.
  - apply Qle_shift_div_r; [reflexivity|]. lra.
Qed.

(** C8. [getContributionStats] returns, with no error on any ledger; the
    [paymentRate] it returns is confirmed / ever * 100 rounded to one decimal
    place (a whole number of tenths, within half a tenth of the exact
    percentage), and it is 0 when no contribution was ever made. *)
Theorem getContributionStats_paymentRate
    (firstDayOfMonth : Z) (db : Database) :
  exists stats,
    getContributionStats firstDayOfMonth db = (Returned stats, db)
    /\ let confirmed := count is_confirmed (contributions db) in
       let ever := count (fun _ => true) (contributions db) in
       totalConfirmed stats = confirmed
       /\ (ever = 0 -> (paymentRate stats == 0)%Q)
       /\ (0 < ever ->
           rounded_to_one_decimal
             (inject_Z confirmed / inject_Z ever * 100)%Q
             (paymentRate stats)).
Proof.
  unfold getContributionStats. eexists. split; [reflexivity|].
  cbv zeta. cbn [totalConfirmed paymentRate].
  rewrite !number_or_zero.
  split; [reflexivity|]. split.
  - intros Hever. rewrite count_all in Hever.
    destruct (contributions db); [reflexivity | simpl in Hever; lia].
  - intros Hever. rewrite (number_or_pos _ 1 Hever).
    apply Z.ltb_lt in Hever. rewrite Hever.
    apply Math_round_tenths.
Qed.

(** One confirmed contribution out of three: 33.3; and the empty ledger. *)
Lemma getContributionStats_paymentRate_witness :
  0 < count (fun _ => true) (contributions Fixtures.one_in_three)
  /\ count (fun _ => true) (contributions Fixtures.empty_ledger) = 0
  /\ (exists stats,
        getContributionStats 0 Fixtures.one_in_three
        = (Returned stats, Fixtures.one_in_three)
        /\ rounded_to_one_decimal (inject_Z 1 / inject_Z 3 * 100)%Q
             (paymentRate stats))
  /\ (exists stats,
        getContributionStats 0 Fixtures.empty_ledger
        = (Returned stats, Fixtures.empty_ledger)
        /\ (paymentRate stats == 0)%Q).
Proof.
  split; [reflexivity|]. split; [reflexivity|]. split.
  - destruct (getContributionStats_paymentRate 0 Fixtures.one_in_three)
      as [stats [Hret [_ [_ Hpos]]]].
    exists stats. split; [exact Hret|]. apply Hpos. reflexivity.
  - destruct (getContributionStats_paymentRate 0 Fixtures.empty_ledger)
      as [stats [Hret [_ [Hzero _]]]].
    exists stats. split; [exact Hret|]. apply Hzero. reflexivity.
Defined.

(** ** The admin status endpoint and the simulation as transitions *)

Lemma patch_by_admin_effect
    (now : Z) (req : Request) (id : Z) (body : StatusBody) (db : Database) :
  not_admin (caller_of req db) = false ->
  let out := patch_contribution_status now req id body db in
  statusCode (fst out) = 200
  /\ users (snd out) = users db
  /\ contributions (snd out)
     = map (fun r => if Contribution.id r =? id
                     then set_status now (sb_status body) (sb_transactionId body) r
                     else r)
         (contributions db)
  /\ treasury (snd out) = treasury db
  /\ treasuryAdjustments (snd out) = treasuryAdjustments db
  /\ auditLogs (snd out)
     = (auditLogs db ++ [status_audit now req db id body])%list.
Proof.
  intros Hadmin out. subst out. rewrite patch_by_admin by assumption.
  repeat split.
Qed.

Lemma find_after_update
    (now id : Z) (status : string) (transactionId : option string)
    (rows : list Contribution.t) (c : Contribution.t) :
  find (fun r => Contribution.id r =? id) rows = Some c ->
  find (fun r => Contribution.id r =? id)
    (map (fun r => if Contribution.id r =? id
                   then set_status now status transactionId r else r) rows)
  = Some (set_status now status transactionId c).
Proof.
  apply (map_update_find (set_status now status transactionId)).
  reflexivity.
Qed.










(** ** Treasury adjustments *)

Lemma adjustment_input_some (body : AdjustmentBody)
    (type : string) (a : Z) (reason : string) :
  adjustment_input body = Some (type, a, reason) ->
  exists amount,
    ab_type body = Some type /\ ab_amount body = Some amount
    /\ ab_reason body = Some reason /\ parseDecimal amount = Some a.
Proof.
  unfold adjustment_input.
  destruct (ab_type body) as [ty|]; [|discriminate].
  destruct (ab_amount body) as [am|]; [|discriminate].
  destruct (ab_reason body) as [re|]; [|discriminate].
  destruct (parseDecimal am) as [v|] eqn:E; simpl; [|discriminate].
  intros [= -> -> ->]. exists am. auto.
Qed.

Lemma adjust_by_admin_effect
    (now : Z) (req : Request) (body : AdjustmentBody) (db : Database)
    (type : string) (a : Z) (reason : string) :
  not_admin (caller_of req db) = false ->
  adjustment_input body = Some (type, a, reason) ->
  let out := post_treasury_adjust now req body db in
  fst out = json (AdjustmentJson (adjustment_row now req db type a reason))
  /\ users (snd out) = users db
  /\ contributions (snd out) = contributions db
  /\ treasuryAdjustments (snd out)
     = (treasuryAdjustments db ++ [adjustment_row now req db type a reason])%list
  /\ treasury (snd out)
     = Some (treasury_row now db (treasury_totalBalance db + signed_amount type a))
  /\ (exists entry,
        auditLogs (snd out) = (auditLogs db ++ [entry])%list
        /\ AuditLog.action entry = "Treasury Adjusted").
Proof.
  intros Hadmin Hinput out.
  pose proof (admin_caller_exists _ _ Hadmin) as Hex.
  destruct (adjustment_input_some _ _ _ _ Hinput)
    as [amount [Hty [Ham [Hre Hparse]]]].
  unfold caller_of in Hadmin. unfold user_exists in Hex.
  subst out.
  unfold post_treasury_adjust, try_catch, bind, getUser,
    insertTreasuryAdjustmentSchema_parse.
  rewrite Hadmin, Hty, Ham, Hre.
  unfold ret, createTreasuryAdjustment, user_exists. cbn [ia_amount ia_adminId].
  rewrite Hparse, Hex.
  unfold getTreasury, updateTreasury, bind, getTreasury, createAuditLog,
    user_exists, parseFloat, treasury_row, treasury_totalBalance, signed_amount,
    adjustment_row.
  cbn [treasury with_treasuryAdjustments ia_type ia_amount ia_reason
       il_adminId users with_treasury pt_totalBalance pt_totalContributions
       pt_totalWithdrawals pt_interestEarned].
  rewrite Hparse.
  destruct (treasury db) as [t|];
    cbn [users with_treasury with_treasuryAdjustments il_adminId];
    rewrite Hex;
    cbn [fst snd users contributions treasuryAdjustments treasury auditLogs
         with_auditLogs with_treasury with_treasuryAdjustments or_else or_keep];
    repeat split;
    try (eexists; split; reflexivity);
    destruct (String.eqb type "deposit" || String.eqb type "interest");
    reflexivity.
Qed.

Lemma adjust_refused
    (now : Z) (req : Request) (body : AdjustmentBody) (db : Database) :
  not_admin (caller_of req db) = true \/ adjustment_input body = None ->
  let out := post_treasury_adjust now req body db in
  (statusCode (fst out) = 403 \/ statusCode (fst out) = 500) /\ snd out = db.
Proof.
  intros Hwhy out. subst out.
  unfold post_treasury_adjust, try_catch, bind, getUser.
  fold (caller_of req db).
  destruct (not_admin (caller_of req db)) eqn:Hadmin.
  - split; [left|]; reflexivity.
  - destruct Hwhy as [Hwhy|Hwhy]; [discriminate|].
    unfold adjustment_input in Hwhy.
    unfold insertTreasuryAdjustmentSchema_parse.
    destruct (ab_type body) as [ty|]; [|split; [right|]; reflexivity].
    destruct (ab_amount body) as [am|]; [|split; [right|]; reflexivity].
    destruct (ab_reason body) as [re|]; [|split; [right|]; reflexivity].
    unfold ret, createTreasuryAdjustment. cbn [ia_amount].
    destruct (parseDecimal am); [discriminate|].
    split; [right|]; reflexivity.
Qed.








(** ** Submissions *)




(** ** The treasury balance over the runs of the server *)

Lemma reachable_run (calls : list Call) :
  forall db, reachable db -> reachable (run calls db).
Proof.
  unfold run. induction calls as [|call calls IH]; intros db Hdb; simpl.
  - exact Hdb.
  - apply IH. now apply reachable_serve.
Qed.



Lemma post_contributions_ledger
    (now : Z) (req : Request) (body : ContributionBody) (db : Database) :
  let out := post_contributions now req body db in
  treasuryAdjustments (snd out) = treasuryAdjustments db
  /\ treasury (snd out) = treasury db.
Proof.
  unfold post_contributions, try_catch, bind, insertContributionSchema_parse,
    ret, throw, createContribution, createAuditLog.
  destruct (cb_amount body) as [amount|]; [|split; reflexivity].
  destruct (cb_paymentMethod body) as [method|]; [|split; reflexivity].
  cbn [ic_amount ic_userId il_adminId].
  destruct (parseDecimal amount) as [A|]; [|split; reflexivity].
  destruct (user_exists (sub req) db); [|split; reflexivity].
  match goal with
  | |- context [user_exists ?u ?d] => destruct (user_exists u d)
  end; split; reflexivity.
Qed.





(** * Further properties *)

(** ** Listings *)

Lemma desc_total (a b : option Z) : desc a b = false -> desc b a = true.
Proof.
  destruct a as [x|], b as [y|]; simpl; try discriminate; auto.
  intros H. apply Z.leb_gt in H. apply Z.leb_le. lia.
Qed.

Lemma desc_trans (a b c : option Z) :
  desc a b = true -> desc b c = true -> desc a c = true.
Proof.
  destruct a as [x|], b as [y|], c as [z|]; simpl; try discriminate; auto.
  intros H1 H2. apply Z.leb_le in H1, H2. apply Z.leb_le. lia.
Qed.

Section OrderBy.

Context {A : Type} (column : A -> option Z).

Lemma insert_desc_perm (row : A) (rows : list A) :
  Permutation (insert_desc column row rows) (row :: rows).
Proof.
  induction rows as [|r rest IH]; simpl; [reflexivity|].
  destruct (desc (column row) (column r)); [reflexivity|].
  rewrite IH. apply perm_swap.
Qed.

Lemma orderBy_desc_perm (rows : list A) :
  Permutation (orderBy_desc column rows) rows.
Proof.
  induction rows as [|r rest IH]; simpl; [reflexivity|].
  unfold orderBy_desc in *. simpl. rewrite insert_desc_perm. now constructor.
Qed.

Lemma insert_desc_sorted (row : A) (rows : list A) :
  newest_first column rows -> newest_first column (insert_desc column row rows).
Proof.
  unfold newest_first. induction 1 as [|r rest Hrest IH Hr]; simpl.
  - repeat constructor.
  - destruct (desc (column row) (column r)) eqn:E.
    + constructor; [now constructor|]. constructor; [exact E|].
      eapply Forall_impl; [|exact Hr]. intros b Hb. simpl in Hb.
      now apply (desc_trans _ (column r)).
    + constructor; [exact IH|].
      eapply Permutation_Forall; [symmetry; apply insert_desc_perm|].
      constructor; [now apply desc_total | exact Hr].
Qed.

Lemma orderBy_desc_sorted (rows : list A) :
  newest_first column (orderBy_desc column rows).
Proof.
  induction rows as [|r rest IH]; simpl; [constructor|].
  now apply insert_desc_sorted.
Qed.

Lemma orderBy_desc_in (rows : list A) (x : A) :
  In x (orderBy_desc column rows) <-> In x rows.
Proof.
  split; apply Permutation_in;
    [apply orderBy_desc_perm | symmetry; apply orderBy_desc_perm].
Qed.

Lemma orderBy_desc_count (p : A -> bool) (rows : list A) :
  count p (orderBy_desc column rows) = count p rows.
Proof.
  unfold count. f_equal. apply Permutation_length.
  assert (H : forall xs ys : list A, Permutation xs ys ->
                Permutation (filter p xs) (filter p ys)).
  { induction 1; simpl.
    - reflexivity.
    - destruct (p x); [now constructor | assumption].
    - destruct (p x), (p y); try reflexivity; apply perm_swap.
    - etransitivity; eassumption. }
  apply H, orderBy_desc_perm.
Qed.


End OrderBy.

(** X1. [GET /api/contributions], [GET /api/treasury/adjustments] and
    [GET /api/audit] answer 200 with every row of their table exactly once
    (a permutation of the table), the latest [createdAt] first, and leave the
    database as it is. *)
Theorem listings_complete_newest_first (db : Database) :
  (exists rows,
     get_contributions db = (reading_json (ContributionsJson rows), db)
     /\ Permutation rows (contributions db)
     /\ newest_first Contribution.createdAt rows)
  /\ (exists rows,
        get_treasury_adjustments db = (reading_json (AdjustmentsJson rows), db)
        /\ Permutation rows (treasuryAdjustments db)
        /\ newest_first TreasuryAdjustment.createdAt rows)
  /\ (exists rows,
        get_audit db = (reading_json (AuditLogsJson rows), db)
        /\ Permutation rows (auditLogs db)
        /\ newest_first AuditLog.createdAt rows).
Proof.
  repeat split; eexists; (split; [reflexivity|]);
    split; auto using orderBy_desc_perm, orderBy_desc_sorted.
Qed.

(** X2. [GET /api/contributions/user/:userId] answers 200 with exactly the
    contributions whose [userId] is the one asked for, the latest first; for
    a user without contributions, known or not, the list is empty. *)
Theorem get_contributions_user_exact (targetUserId : string) (db : Database) :
  exists rows,
    get_contributions_user targetUserId db
    = (reading_json (ContributionsJson rows), db)
    /\ (forall c, In c rows <->
                  In c (contributions db)
                  /\ Contribution.userId c = targetUserId)
    /\ newest_first Contribution.createdAt rows
    /\ ((forall c, In c (contributions db) ->
                   Contribution.userId c <> targetUserId) ->
        rows = []).
Proof.
  eexists. split; [reflexivity|]. split; [|split].
  - intros c. rewrite orderBy_desc_in, filter_In.
    now rewrite String.eqb_eq.
  - apply orderBy_desc_sorted.
  - intros Hnone.
    match goal with |- ?l = [] => destruct l as [|c rest] eqn:E end;
      [reflexivity|].
    assert (Hin : In c (c :: rest)) by (left; reflexivity).
    rewrite <- E in Hin. rewrite orderBy_desc_in, filter_In in Hin.
    destruct Hin as [Hin Heq]. apply String.eqb_eq in Heq.
    now elim (Hnone c Hin).
Qed.

(** The member's listing after Scenario A, and the admin's, who has
    submitted nothing. *)
Lemma get_contributions_user_exact_witness :
  listed_contributions (get_contributions_user "member-456" Fixtures.paid)
  = [Fixtures.paid_row]
  /\ (forall c, In c (contributions Fixtures.paid) ->
                Contribution.userId c <> "admin-123")
  /\ listed_contributions (get_contributions_user "admin-123" Fixtures.paid)
     = [].
Proof.
  split; [reflexivity|].
  assert (Hnone : forall c, In c (contributions Fixtures.paid) ->
                            Contribution.userId c <> "admin-123").
  { intros c [<- | []]. discriminate. }
  split; [exact Hnone|].
  destruct (get_contributions_user_exact "admin-123" Fixtures.paid)
    as [rows [Heq [_ [_ Hempty]]]].
  rewrite Heq. exact (Hempty Hnone).
Defined.

(** ** What each call writes *)

Lemma post_contributions_effect
    (now : Z) (req : Request) (body : ContributionBody) (db : Database) :
  let out := post_contributions now req body db in
  if submission_accepted req body db then
    exists c entry,
      fst out = json (ContributionJson c)
      /\ snd out
         = with_auditLogs
             (with_contributions db (contributions db ++ [c])
                (contributions_seq db + 1))
             (auditLogs db ++ [entry]) (auditLogs_seq db + 1)
      /\ Contribution.id c = contributions_seq db
      /\ Contribution.userId c = sub req
      /\ Contribution.createdAt c = Some now
      /\ Contribution.status c
         = match cb_status body with
           | Some status => status
           | None => "pending"
           end
      /\ Contribution.confirmedAt c = None
      /\ AuditLog.action entry = "Payment Initiated"
      /\ cb_paymentMethod body = Some (Contribution.paymentMethod c)
      /\ option_map parseDecimal (cb_amount body)
         = Some (Some (Contribution.amount c))
  else
    fst out = status_json 500 "Failed to create contribution" /\ snd out = db.
Proof.
  unfold submission_accepted, post_contributions, try_catch, bind,
    insertContributionSchema_parse, ret, throw, createContribution.
  destruct (cb_amount body) as [amount|]; [|split; reflexivity].
  destruct (cb_paymentMethod body) as [method|]; [|split; reflexivity].
  cbn [ic_amount ic_userId].
  destruct (parseDecimal amount) as [A|] eqn:Hparse; [|split; reflexivity].
  destruct (user_exists (sub req) db) eqn:Hex; [|split; reflexivity].
  unfold createAuditLog, user_exists in *.
  cbn [il_adminId users with_contributions]. rewrite Hex.
  do 2 eexists. cbn [fst snd option_map]. rewrite Hparse. repeat split.
Qed.

Lemma adjust_by_admin_db
    (now : Z) (req : Request) (body : AdjustmentBody) (db : Database)
    (type : string) (a : Z) (reason : string) :
  not_admin (caller_of req db) = false ->
  adjustment_input body = Some (type, a, reason) ->
  exists entry,
    snd (post_treasury_adjust now req body db)
    = with_auditLogs
        (with_treasury
           (with_treasuryAdjustments db
              (treasuryAdjustments db ++ [adjustment_row now req db type a reason])
              (treasuryAdjustments_seq db + 1))
           (Some (treasury_row now db
                    (treasury_totalBalance db + signed_amount type a)))
           (match treasury db with
            | Some _ => treasury_seq db
            | None => treasury_seq db + 1
            end))
        (auditLogs db ++ [entry]) (auditLogs_seq db + 1)
    /\ AuditLog.action entry = "Treasury Adjusted".
Proof.
  intros Hadmin Hinput.
  pose proof (admin_caller_exists _ _ Hadmin) as Hex.
  destruct (adjustment_input_some _ _ _ _ Hinput)
    as [amount [Hty [Ham [Hre Hparse]]]].
  unfold caller_of in Hadmin. unfold user_exists in Hex.
  unfold post_treasury_adjust, try_catch, bind, getUser,
    insertTreasuryAdjustmentSchema_parse.
  rewrite Hadmin, Hty, Ham, Hre.
  unfold ret, createTreasuryAdjustment, user_exists. cbn [ia_amount ia_adminId].
  rewrite Hparse, Hex.
  unfold getTreasury, updateTreasury, bind, getTreasury, createAuditLog,
    user_exists, parseFloat, treasury_row, treasury_totalBalance, signed_amount,
    adjustment_row.
  cbn [treasury with_treasuryAdjustments ia_type ia_amount ia_reason
       il_adminId users with_treasury pt_totalBalance pt_totalContributions
       pt_totalWithdrawals pt_interestEarned].
  rewrite Hparse.
  destruct (treasury db) as [t|];
    cbn [users with_treasury with_treasuryAdjustments il_adminId];
    rewrite Hex; eexists; cbn [fst snd or_else or_keep];
    (split;
     [ destruct (String.eqb type "deposit" || String.eqb type "interest");
       reflexivity
     | reflexivity ]).
Qed.

(** The adjustment handler by cases: refused with nothing written, or
    through with the three writes. *)
Lemma adjust_cases
    (now : Z) (req : Request) (body : AdjustmentBody) (db : Database) :
  snd (post_treasury_adjust now req body db) = db
  \/ (exists type a reason entry,
        snd (post_treasury_adjust now req body db)
        = with_auditLogs
            (with_treasury
               (with_treasuryAdjustments db
                  (treasuryAdjustments db
                     ++ [adjustment_row now req db type a reason])
                  (treasuryAdjustments_seq db + 1))
               (Some (treasury_row now db
                        (treasury_totalBalance db + signed_amount type a)))
               (match treasury db with
                | Some _ => treasury_seq db
                | None => treasury_seq db + 1
                end))
            (auditLogs db ++ [entry]) (auditLogs_seq db + 1)
        /\ AuditLog.action entry = "Treasury Adjusted").
Proof.
  destruct (not_admin (caller_of req db)) eqn:Hadmin.
  - left. now destruct (adjust_refused now req body db (or_introl Hadmin)).
  - destruct (adjustment_input body) as [[[type a] reason]|] eqn:Hinput.
    + right. exists type, a, reason.
      apply adjust_by_admin_db; assumption.
    + left. now destruct (adjust_refused now req body db (or_intror Hinput)).
Qed.

Lemma serve_written (call : Call) (db : Database) : written db (serve call db).
Proof.
  destruct call as [now req body | now req id body | now req body
                   | now req body | rows]; cbn [serve].
  - pose proof (post_contributions_effect now req body db) as H.
    cbv zeta in H. destruct (submission_accepted req body db).
    + destruct H as [c [entry [_ [-> [Hid [_ [_ [_ [Hconf [Haction _]]]]]]]]]].
      now apply written_submission.
    + destruct H as [_ ->]. apply written_nothing.
  - destruct (not_admin (caller_of req db)) eqn:Hadmin.
    + rewrite patch_by_other by assumption. apply written_nothing.
    + rewrite patch_by_admin by assumption.
      now apply written_status_audited.
  - destruct (adjust_cases now req body db)
      as [-> | [type [a [reason [entry [-> Haction]]]]]].
    + apply written_nothing.
    + now apply written_adjustment.
  - rewrite simulate_eq. apply written_status.
  - apply written_users.
Qed.

Lemma run_snoc (calls : list Call) (call : Call) (db : Database) :
  run (calls ++ [call]) db = serve call (run calls db).
Proof. unfold run. now rewrite fold_left_app. Qed.

(** ** The submission handler *)


(** ** What no call undoes *)

Lemma set_status_written_once
    (now : Z) (status : string) (transactionId : option string)
    (c : Contribution.t) :
  written_once (set_status now status transactionId c) = written_once c.
Proof. reflexivity. Qed.

Lemma set_status_keeps_transactionId
    (now : Z) (status : string) (transactionId : option string)
    (c : Contribution.t) :
  truthy (Contribution.transactionId c) = true ->
  truthy (Contribution.transactionId (set_status now status transactionId c))
  = true.
Proof.
  intros H. simpl. destruct (truthy transactionId) eqn:E; assumption.
Qed.

Lemma written_logs (db db' : Database) :
  written db db' ->
  exists entries rows,
    auditLogs db' = (auditLogs db ++ entries)%list
    /\ treasuryAdjustments db' = (treasuryAdjustments db ++ rows)%list
    /\ (List.length entries <= 1)%nat
    /\ (List.length rows <= 1)%nat
    /\ Forall (fun e => In (AuditLog.action e) written_actions) entries.
Proof.
  unfold written_actions.
  destruct 1 as [ | rows | c entry Hid Hconf Haction | now id status tx
                | now id status tx entry Haction
                | now row balance entry Haction ]; simpl.
  - exists [], []. rewrite !app_nil_r. repeat split; auto.
  - exists [], []. rewrite !app_nil_r. repeat split; auto.
  - exists [entry], []. rewrite app_nil_r. repeat split; auto;
      try (constructor; [rewrite Haction; simpl; auto | constructor]).
  - exists [], []. rewrite !app_nil_r. repeat split; auto.
  - exists [entry], []. rewrite app_nil_r. repeat split; auto;
      try (constructor; [rewrite Haction; simpl; auto | constructor]).
  - exists [entry], [row]. repeat split; auto;
      try (constructor; [rewrite Haction; simpl; auto | constructor]).
Qed.

Lemma written_contributions (db db' : Database) :
  written db db' ->
  (exists f,
     contributions db' = map f (contributions db)
     /\ contributions_seq db' = contributions_seq db
     /\ (forall r, written_once (f r) = written_once r)
     /\ (forall r, truthy (Contribution.transactionId r) = true ->
                   truthy (Contribution.transactionId (f r)) = true))
  \/ (exists c,
        contributions db' = (contributions db ++ [c])%list
        /\ contributions_seq db' = contributions_seq db + 1
        /\ Contribution.id c = contributions_seq db).
Proof.
  assert (Hsame : forall rows : list Contribution.t,
             exists f, rows = map f rows
               /\ (forall r, written_once (f r) = written_once r)
               /\ (forall r, truthy (Contribution.transactionId r) = true ->
                     truthy (Contribution.transactionId (f r)) = true)).
  { intros rows. exists (fun r => r). rewrite map_id. auto. }
  assert (Hupd : forall now id status tx,
             (forall r, written_once
                          (if Contribution.id r =? id
                           then set_status now status tx r else r)
                        = written_once r)
             /\ (forall r, truthy (Contribution.transactionId r) = true ->
                   truthy (Contribution.transactionId
                             (if Contribution.id r =? id
                              then set_status now status tx r else r))
                   = true)).
  { intros now id status tx. split; intros r;
      destruct (Contribution.id r =? id); auto.
    apply set_status_keeps_transactionId. }
  destruct 1 as [ | rows | c entry Hid Hconf Haction | now id status tx
                | now id status tx entry Haction
                | now row balance entry Haction ]; simpl.
  - left. destruct (Hsame (contributions db)) as [f [H1 [H2 H3]]].
    exists f. auto.
  - left. destruct (Hsame (contributions db)) as [f [H1 [H2 H3]]].
    exists f. auto.
  - right. exists c. auto.
  - left. eexists. split; [reflexivity|]. split; [reflexivity|]. apply Hupd.
  - left. eexists. split; [reflexivity|]. split; [reflexivity|]. apply Hupd.
  - left. destruct (Hsame (contributions db)) as [f [H1 [H2 H3]]].
    exists f. auto.
Qed.

(** X4. The audit log and the adjustments table only grow.  Over any run
    the log and the table of the starting state are kept as they were, as a
    prefix; every call appends at most one audit entry and at most one
    adjustment; and every entry written carries one of the three actions
    ["Payment Initiated"], ["Payment Status Updated"],
    ["Treasury Adjusted"]. *)
Theorem logs_append_only (calls : list Call) (db : Database) :
  exists entries rows,
    auditLogs (run calls db) = (auditLogs db ++ entries)%list
    /\ treasuryAdjustments (run calls db)
       = (treasuryAdjustments db ++ rows)%list
    /\ (List.length entries <= List.length calls)%nat
    /\ (List.length rows <= List.length calls)%nat
    /\ Forall (fun e => In (AuditLog.action e) written_actions) entries.
Proof.
  revert db. induction calls as [|call calls IH]; intros db.
  - exists [], []. rewrite !app_nil_r. repeat split; auto.
  - change (run (call :: calls) db) with (run calls (serve call db)).
    destruct (written_logs _ _ (serve_written call db))
      as [e1 [r1 [He1 [Hr1 [Hle1 [Hlr1 Hk1]]]]]].
    destruct (IH (serve call db)) as [e2 [r2 [He2 [Hr2 [Hle2 [Hlr2 Hk2]]]]]].
    exists (e1 ++ e2)%list, (r1 ++ r2)%list.
    rewrite He2, Hr2, He1, Hr1, <- !app_assoc, !length_app. simpl.
    repeat split; try lia. apply Forall_app. auto.
Qed.

(** X5. No call deletes a contribution or rewrites what was written at its
    creation: over any run the ids, owners, amounts, payment methods,
    receipts and creation times of the contributions of the starting state
    are kept, in place; a call only rewrites [status], [transactionId] and
    [confirmedAt], or appends a contribution. *)
Theorem contributions_written_once (calls : list Call) (db : Database) :
  exists added,
    map written_once (contributions (run calls db))
    = (map written_once (contributions db) ++ added)%list
    /\ (List.length added <= List.length calls)%nat.
Proof.
  revert db. induction calls as [|call calls IH]; intros db.
  - exists []. rewrite app_nil_r. auto.
  - change (run (call :: calls) db) with (run calls (serve call db)).
    destruct (IH (serve call db)) as [added [Hrows Hlen]].
    destruct (written_contributions _ _ (serve_written call db))
      as [[f [Hf [_ [Honce _]]]] | [c [Hc _]]].
    + exists added. split; [|simpl; lia].
      rewrite Hrows, Hf, map_map. f_equal.
      apply map_ext. exact Honce.
    + exists (written_once c :: added). split; [|simpl; lia].
      rewrite Hrows, Hc, map_app, <- app_assoc. reflexivity.
Qed.

(** X6. A transaction id, once stored, is never erased: if a contribution
    carries a non-empty [transactionId], then after any run the contribution
    of that id still carries a non-empty one (a later update may replace it,
    an update without transaction id keeps it). *)
Theorem transactionId_never_erased
    (calls : list Call) (db : Database) (c : Contribution.t) :
  In c (contributions db) ->
  truthy (Contribution.transactionId c) = true ->
  exists c',
    In c' (contributions (run calls db))
    /\ written_once c' = written_once c
    /\ truthy (Contribution.transactionId c') = true.
Proof.
  revert db c. induction calls as [|call calls IH]; intros db c Hin Htx.
  - exists c. auto.
  - change (run (call :: calls) db) with (run calls (serve call db)).
    destruct (written_contributions _ _ (serve_written call db))
      as [[f [Hf [_ [Honce Hkeep]]]] | [c1 [Hc1 _]]].
    + destruct (IH (serve call db) (f c)) as [c' [Hin' [Honce' Htx']]].
      * rewrite Hf. now apply in_map.
      * now apply Hkeep.
      * exists c'. rewrite Honce' in *. rewrite Honce. auto.
    + destruct (IH (serve call db) c) as [c' [Hin' [Honce' Htx']]]; auto.
      * rewrite Hc1. apply in_or_app. now left.
      * exists c'. auto.
Qed.

(** The paid contribution keeps its ["TXN30"] when the admin later sets it
    to ["failed"] without a transaction id. *)
Lemma transactionId_never_erased_witness :
  In Fixtures.paid_row (contributions Fixtures.paid)
  /\ truthy (Contribution.transactionId Fixtures.paid_row) = true
  /\ exists c',
       In c' (contributions
                (run [PatchContributionStatus 40 Fixtures.as_admin 1
                        Fixtures.fail] Fixtures.paid))
       /\ written_once c' = written_once Fixtures.paid_row
       /\ truthy (Contribution.transactionId c') = true.
Proof.
  assert (Hin : In Fixtures.paid_row (contributions Fixtures.paid))
    by (left; reflexivity).
  split; [exact Hin|]. split; [reflexivity|].
  exact (transactionId_never_erased
           [PatchContributionStatus 40 Fixtures.as_admin 1 Fixtures.fail]
           Fixtures.paid Fixtures.paid_row Hin eq_refl).
Defined.

(** ** Invariants of the reachable states *)

Lemma find_by_unique_id (rows : list Contribution.t) (c : Contribution.t) :
  NoDup (map Contribution.id rows) ->
  In c rows ->
  find (fun r => Contribution.id r =? Contribution.id c) rows = Some c.
Proof.
  induction rows as [|r rest IH]; simpl; [intros _ []|].
  intros Hnodup [-> | Hin].
  - now rewrite Z.eqb_refl.
  - inversion Hnodup as [|? ? Hnotin Hrest]; subst.
    destruct (Z.eqb_spec (Contribution.id r) (Contribution.id c)) as [E|E].
    + elim Hnotin. rewrite E. now apply in_map.
    + now apply IH.
Qed.

Lemma reachable_ids (db : Database) :
  reachable db ->
  NoDup (map Contribution.id (contributions db))
  /\ Forall (fun c => Contribution.id c < contributions_seq db)
       (contributions db).
Proof.
  induction 1 as [members | call db Hdb [IHnodup IHlt]].
  - split; constructor.
  - destruct (written_contributions _ _ (serve_written call db))
      as [[f [Hf [Hseq [Honce _]]]] | [c [Hc [Hseq Hid]]]].
    + assert (Hids : map Contribution.id (map f (contributions db))
                     = map Contribution.id (contributions db)).
      { rewrite map_map. apply map_ext. intros r.
        pose proof (Honce r) as E. unfold written_once in E.
        now inversion E. }
      rewrite Hf, Hseq, Hids. split; [exact IHnodup|].
      apply Forall_map. eapply Forall_impl; [|exact IHlt].
      intros r Hr. simpl.
      pose proof (Honce r) as E. unfold written_once in E.
      inversion E as [[E1 E2 E3 E4 E5 E6]]. now rewrite E1.
    + rewrite Hc, Hseq, map_app. simpl. split.
      * apply NoDup_app; [exact IHnodup | repeat constructor; auto |].
        intros i Hi [<- | []]. rewrite Hid in Hi.
        apply in_map_iff in Hi as [r [Hr Hin]].
        rewrite Forall_forall in IHlt. specialize (IHlt r Hin). lia.
      * apply Forall_app. split.
        -- eapply Forall_impl; [|exact IHlt]. simpl. intros; lia.
        -- constructor; [lia | constructor].
Qed.

(** X7. In every reachable state the contributions have pairwise distinct
    ids, all below the next value of the sequence: an id names at most one
    contribution, looking a contribution up by its id finds that very row,
    and a status update for its id rewrites that row and no other. *)
Theorem contribution_ids_unique (db : Database) (c : Contribution.t) :
  reachable db ->
  In c (contributions db) ->
  find_contribution (Contribution.id c) db = Some c
  /\ Contribution.id c < contributions_seq db
  /\ (forall r, In r (contributions db) ->
                Contribution.id r = Contribution.id c -> r = c)
  /\ (forall now status transactionId r,
        In r (contributions db) -> r <> c ->
        In r (contributions
                (snd (updateContributionStatus now (Contribution.id c) status
                        transactionId db)))).
Proof.
  intros Hreach Hin. destruct (reachable_ids db Hreach) as [Hnodup Hlt].
  assert (Huniq : forall r, In r (contributions db) ->
                            Contribution.id r = Contribution.id c -> r = c).
  { intros r Hr Hid.
    pose proof (find_by_unique_id _ _ Hnodup Hr) as H1.
    pose proof (find_by_unique_id _ _ Hnodup Hin) as H2.
    rewrite Hid in H1. congruence. }
  split; [now apply find_by_unique_id|]. split.
  - rewrite Forall_forall in Hlt. now apply Hlt.
  - split; [exact Huniq|].
    intros now status tx r Hr Hne. simpl. apply in_map_iff. exists r.
    split; [|exact Hr].
    destruct (Z.eqb_spec (Contribution.id r) (Contribution.id c)) as [E|E];
      [|reflexivity].
    elim Hne. now apply Huniq.
Qed.

(** The three submissions of [Fixtures.one_in_three] have the ids 1, 2, 3. *)
Lemma contribution_ids_unique_witness :
  reachable Fixtures.one_in_three
  /\ map Contribution.id (contributions Fixtures.one_in_three) = [1; 2; 3]
  /\ option_map Contribution.amount (find_contribution 2 Fixtures.one_in_three)
     = Some 2000000.
Proof.
  assert (Hreach : reachable Fixtures.one_in_three).
  { unfold Fixtures.one_in_three, Fixtures.submitted.
    do 2 apply reachable_run. apply reachable_fresh. }
  split; [exact Hreach|]. split; [reflexivity|].
  destruct (contribution_ids_unique Fixtures.one_in_three
              (Contribution.mk 2 "member-456" 2000000 "visa" "pending" None
                 None (Some 21) None) Hreach)
    as [Hfind _].
  { right. left. reflexivity. }
  cbn [Contribution.id] in Hfind. rewrite Hfind. reflexivity.
Defined.





Lemma serve_request_users (call : Call) (db : Database) :
  is_request call = true -> users (serve call db) = users db.
Proof.
  destruct call as [now req body | now req id body | now req body
                   | now req body | rows]; cbn [serve is_request];
    intros Hreq; try discriminate Hreq.
  - pose proof (post_contributions_effect now req body db) as H.
    cbv zeta in H. destruct (submission_accepted req body db).
    + destruct H as [c [entry [_ [-> _]]]]. reflexivity.
    + destruct H as [_ ->]. reflexivity.
  - destruct (not_admin (caller_of req db)) eqn:Hadmin.
    + now rewrite patch_by_other.
    + now rewrite patch_by_admin.
  - destruct (adjust_cases now req body db)
      as [-> | [type [a [reason [entry [-> _]]]]]]; reflexivity.
  - now rewrite simulate_eq.
Qed.

Lemma run_requests_users (calls : list Call) (db : Database) :
  forallb is_request calls = true -> users (run calls db) = users db.
Proof.
  revert db. induction calls as [|call calls IH]; intros db Hcalls;
    [reflexivity|].
  simpl in Hcalls. apply andb_true_iff in Hcalls as [Hcall Hrest].
  change (run (call :: calls) db) with (run calls (serve call db)).
  rewrite (IH _ Hrest). now apply serve_request_users.
Qed.

(** X10. No handler of [routes.ts] writes the users table.  Over any run of
    requests the table is what it was, so [GET /api/members] lists the same
    members with the same [totalContributed], [currentBalance],
    [lastPaymentDate], [role] and [isActive], whatever was submitted,
    confirmed or adjusted in between. *)
Theorem requests_never_write_users (calls : list Call) (db : Database) :
  forallb is_request calls = true ->
  users (run calls db) = users db
  /\ get_members (run calls db)
     = (fst (get_members db), run calls db).
Proof.
  intros Hcalls.
  assert (Husers : users (run calls db) = users db)
    by now apply run_requests_users.
  split; [exact Husers|].
  unfold get_members, try_catch_reading, bind, getAllMembers, ret. simpl.
  now rewrite Husers.
Qed.

(** After the deposit, the submission and the payment of
    [Fixtures.ledger_calls], the member is listed as before: totals at 0. *)
Lemma requests_never_write_users_witness :
  forallb is_request Fixtures.ledger_calls = true
  /\ users Fixtures.funded_and_paid = [Fixtures.admin; Fixtures.member]
  /\ listed_members (get_members Fixtures.funded_and_paid) = [Fixtures.member].
Proof.
  destruct (requests_never_write_users Fixtures.ledger_calls
              Fixtures.empty_ledger eq_refl) as [Husers Hget].
  split; [reflexivity|]. split.
  - unfold Fixtures.funded_and_paid. rewrite Husers. reflexivity.
  - unfold Fixtures.funded_and_paid, listed_members. rewrite Hget. reflexivity.
Defined.



(** ** Statistics and listings together *)

Lemma count_le_all {A} (p : A -> bool) (rows : list A) :
  count p rows <= count (fun _ => true) rows.
Proof.
  rewrite count_all. unfold count. apply inj_le.
  induction rows as [|r rest IH]; simpl; [lia|].
  destruct (p r); simpl; lia.
Qed.

Lemma Math_round_percentage (p : Q) :
  (0 <= p)%Q -> (p <= 100)%Q ->
  (0 <= inject_Z (Math_round (p * 10)) / 10)%Q
  /\ (inject_Z (Math_round (p * 10)) / 10 <= 100)%Q.
Proof.
  intros H0 H100. unfold Math_round.
  assert (Hlow : 0 <= Qfloor (p * 10 + (1 # 2))).
  { change 0 with (Qfloor (1 # 2)). apply Qfloor_resp_le. lra. }
  assert (Hhigh : Qfloor (p * 10 + (1 # 2)) <= 1000).
  { change 1000 with (Qfloor (1000 + (1 # 2))). apply Qfloor_resp_le. lra. }
  set (n := Qfloor (p * 10 + (1 # 2))) in *.
  split.
  - apply Qle_shift_div_l; [reflexivity|].
    rewrite Qmult_0_l. change 0%Q with (inject_Z 0). now rewrite <- Zle_Qle.
  - apply Qle_shift_div_r; [reflexivity|].
    change (100 * 10)%Q with (inject_Z 1000). now rewrite <- Zle_Qle.
Qed.

(** X12. Whatever the ledger holds, [GET /api/stats] answers 200 with a
    [paymentRate] between 0 and 100 and a [totalConfirmed] between 0 and the
    number of contributions ever made. *)
Theorem stats_in_range (firstDayOfMonth : Z) (db : Database) :
  exists stats,
    get_stats firstDayOfMonth db = (reading_json (StatsJson stats), db)
    /\ (0 <= paymentRate stats)%Q
    /\ (paymentRate stats <= 100)%Q
    /\ 0 <= totalConfirmed stats
    /\ totalConfirmed stats <= Z.of_nat (List.length (contributions db)).
Proof.
  unfold get_stats, try_catch_reading, bind, getContributionStats, ret.
  eexists. split; [reflexivity|].
  cbn [paymentRate totalConfirmed]. rewrite !number_or_zero.
  pose proof (count_le_all is_confirmed (contributions db)) as Hle.
  pose proof (count_nonneg is_confirmed (contributions db)) as Hnn.
  set (c := count is_confirmed (contributions db)) in *.
  set (t := count (fun _ => true) (contributions db)) in *.
  assert (Hrate : (0 <= (if 0 <? number_or t 1
                         then inject_Z c / inject_Z (number_or t 1) * 100
                         else 0))%Q
                  /\ ((if 0 <? number_or t 1
                       then inject_Z c / inject_Z (number_or t 1) * 100
                       else 0) <= 100)%Q).
  { assert (Ht : 0 < number_or t 1 /\ c <= number_or t 1).
    { unfold number_or. destruct (Z.eqb_spec t 0); lia. }
    destruct Ht as [Hpos Hct]. set (T := number_or t 1) in *.
    apply Z.ltb_lt in Hpos as Hb. rewrite Hb.
    assert (HT : (0 < inject_Z T)%Q)
      by (change 0%Q with (inject_Z 0); now rewrite <- Zlt_Qlt).
    assert (H1 : (inject_Z c / inject_Z T <= 1)%Q).
    { apply Qle_shift_div_r; [exact HT|]. rewrite Qmult_1_l.
      now rewrite <- Zle_Qle. }
    assert (H0 : (0 <= inject_Z c / inject_Z T)%Q).
    { apply Qle_shift_div_l; [exact HT|]. rewrite Qmult_0_l.
      change 0%Q with (inject_Z 0). now rewrite <- Zle_Qle. }
    split; lra. }
  destruct Hrate as [H0 H100].
  destruct (Math_round_percentage _ H0 H100) as [Hlow Hhigh].
  repeat split; try assumption.
  subst t. rewrite count_all in Hle. exact Hle.
Qed.

Lemma filter_filter_length {A} (p q : A -> bool) (rows : list A) :
  List.length (filter q (filter p rows))
  = List.length (filter (fun r => p r && q r) rows).
Proof.
  induction rows as [|r rest IH]; simpl; [reflexivity|].
  destruct (p r); simpl; [|exact IH].
  destruct (q r); simpl; now rewrite IH.
Qed.

(** X13. [GET /api/members] answers 200 with exactly the users whose role is
    ["member"], the latest created first; an admin is never listed.  The
    [activeMembers] of [GET /api/stats] is the number of listed members
    whose [isActive] is true, and so never exceeds the length of the list. *)
Theorem members_listed_and_counted (firstDayOfMonth : Z) (db : Database) :
  exists members stats,
    get_members db = (reading_json (MembersJson members), db)
    /\ get_stats firstDayOfMonth db = (reading_json (StatsJson stats), db)
    /\ (forall u, In u members <-> In u (users db) /\ User.role u = "member")
    /\ newest_first User.createdAt members
    /\ activeMembers stats = count is_active members
    /\ activeMembers stats <= Z.of_nat (List.length members).
Proof.
  do 2 eexists. split; [reflexivity|]. split; [reflexivity|].
  cbn [activeMembers]. rewrite number_or_zero.
  assert (Hcount : count (fun u => String.eqb (User.role u) "member"
                                   && match User.isActive u with
                                      | Some true => true
                                      | _ => false
                                      end) (users db)
                   = count is_active
                       (orderBy_desc User.createdAt
                          (filter (fun u => String.eqb (User.role u) "member")
                             (users db)))).
  { rewrite orderBy_desc_count. unfold count.
    now rewrite filter_filter_length. }
  split; [|split; [|split]].
  - intros u. rewrite orderBy_desc_in, filter_In. now rewrite String.eqb_eq.
  - apply orderBy_desc_sorted.
  - exact Hcount.
  - rewrite Hcount. rewrite <- count_all. apply count_le_all.
Qed.

(** Of the two demo users only the member is listed, and is active. *)
Lemma members_listed_and_counted_witness :
  In Fixtures.member (users Fixtures.paid)
  /\ User.role Fixtures.member = "member"
  /\ In Fixtures.member (listed_members (get_members Fixtures.paid))
  /\ ~ In Fixtures.admin (listed_members (get_members Fixtures.paid)).
Proof.
  destruct (members_listed_and_counted 0 Fixtures.paid)
    as [members [stats [Hget [_ [Hexact _]]]]].
  unfold listed_members. rewrite Hget. cbn [fst listing reading_json].
  split; [right; left; reflexivity|]. split; [reflexivity|]. split.
  - apply Hexact. split; [right; left; reflexivity | reflexivity].
  - intros Hadmin. apply Hexact in Hadmin as [_ Hrole]. discriminate Hrole.
Defined.

Lemma sum_amounts_app (xs ys : list Contribution.t) :
  sum_amounts (xs ++ ys) = sum_amounts xs + sum_amounts ys.
Proof.
  unfold sum_amounts. induction xs as [|x xs IH]; simpl; lia.
Qed.

Lemma count_cons {A} (p : A -> bool) (x : A) (rows : list A) :
  count p (x :: rows) = (if p x then 1 else 0) + count p rows.
Proof.
  unfold count. cbn [filter]. destruct (p x); cbn [List.length];
    rewrite ?Nat2Z.inj_succ; lia.
Qed.

Lemma sum_filter_cons (p : Contribution.t -> bool) (x : Contribution.t)
    (rows : list Contribution.t) :
  sum_amounts (filter p (x :: rows))
  = (if p x then Contribution.amount x else 0) + sum_amounts (filter p rows).
Proof. simpl. destruct (p x); reflexivity. Qed.

Lemma update_only_row (rows : list Contribution.t) (c : Contribution.t)
    (g : Contribution.t -> Contribution.t) :
  NoDup (map Contribution.id rows) ->
  In c rows ->
  exists before after,
    rows = (before ++ c :: after)%list
    /\ map (fun r => if Contribution.id r =? Contribution.id c then g r else r)
         rows
       = (before ++ g c :: after)%list.
Proof.
  intros Hnodup Hin. apply in_split in Hin as [before [after ->]].
  exists before, after. split; [reflexivity|].
  rewrite map_app in Hnodup. simpl in Hnodup.
  apply NoDup_remove_2 in Hnodup.
  assert (Hkeep : forall l,
             ~ In (Contribution.id c) (map Contribution.id l) ->
             map (fun r => if Contribution.id r =? Contribution.id c
                           then g r else r) l = l).
  { induction l as [|r l IH]; simpl; [reflexivity|].
    intros Hnot. destruct (Z.eqb_spec (Contribution.id r) (Contribution.id c)).
    - elim Hnot. now left.
    - rewrite IH; [reflexivity|]. intros H. apply Hnot. now right. }
  rewrite map_app. simpl. rewrite Z.eqb_refl.
  rewrite !Hkeep; [reflexivity| |];
    intros H; apply Hnodup, in_or_app; auto.
Qed.

(** X14. Confirming a contribution that was not confirmed, in a reachable
    state, shows in the statistics as one would expect: [totalConfirmed]
    goes up by one, [totalThisMonth] goes up by the amount of the
    contribution when it was created in the current month and stays as it
    was otherwise, and no other contribution is counted differently. *)
Theorem confirmation_counts_in_stats
    (firstDayOfMonth now : Z) (req : Request) (db : Database)
    (c : Contribution.t) :
  reachable db ->
  In c (contributions db) ->
  is_confirmed c = false ->
  let db' := snd (post_payments_simulate now req
                    (mkSimulateBody (Contribution.id c) true) db) in
  exists stats stats',
    stats_of firstDayOfMonth db = Some stats
    /\ stats_of firstDayOfMonth db' = Some stats'
    /\ totalConfirmed stats' = totalConfirmed stats + 1
    /\ totalThisMonth stats'
       = totalThisMonth stats
         + (if created_since firstDayOfMonth c then Contribution.amount c
            else 0)
    /\ activeMembers stats' = activeMembers stats.
Proof.
  intros Hreach Hin Hpending db'.
  destruct (reachable_ids db Hreach) as [Hnodup _].
  destruct (update_only_row (contributions db) c
              (set_status now "confirmed" (Some ("TXN" ++ show_int now)))
              Hnodup Hin)
    as [before [after [Hrows Hrows']]].
  assert (Hdb' : contributions db'
                 = (before
                      ++ set_status now "confirmed"
                           (Some ("TXN" ++ show_int now)%string) c
                      :: after)%list).
  { subst db'. rewrite simulate_eq. exact Hrows'. }
  assert (Husers : users db' = users db)
    by (subst db'; now rewrite simulate_eq).
  unfold stats_of, get_stats, try_catch_reading, bind, getContributionStats,
    ret.
  do 2 eexists. split; [reflexivity|]. split; [reflexivity|].
  cbn [totalConfirmed totalThisMonth activeMembers].
  rewrite !number_or_zero, Husers, Hdb', Hrows.
  rewrite !count_app, !filter_app, !sum_amounts_app, !count_cons,
    !sum_filter_cons.
  cbv beta.
  set (c' := set_status now "confirmed" (Some ("TXN" ++ show_int now)) c).
  assert (Hc' : is_confirmed c' = true) by reflexivity.
  assert (Hat : created_since firstDayOfMonth c'
                = created_since firstDayOfMonth c) by reflexivity.
  assert (Hamount : Contribution.amount c' = Contribution.amount c)
    by reflexivity.
  rewrite Hc', Hat, Hamount, Hpending. cbn [andb].
  destruct (created_since firstDayOfMonth c); repeat split; lia.
Qed.

(** Scenario A seen from the statistics: before the payment nothing is
    confirmed, after it one contribution of 50000 is. *)
Lemma confirmation_counts_in_stats_witness :
  reachable Fixtures.submitted
  /\ In Fixtures.pending_row (contributions Fixtures.submitted)
  /\ is_confirmed Fixtures.pending_row = false
  /\ option_map totalConfirmed (stats_of 0 Fixtures.submitted) = Some 0
  /\ option_map totalConfirmed (stats_of 0 Fixtures.paid) = Some 1
  /\ option_map totalThisMonth (stats_of 0 Fixtures.paid) = Some 5000000.
Proof.
  assert (Hreach : reachable Fixtures.submitted)
    by (apply reachable_run, reachable_fresh).
  assert (Hin : In Fixtures.pending_row (contributions Fixtures.submitted))
    by (left; reflexivity).
  destruct (confirmation_counts_in_stats 0 30 Fixtures.as_member
              Fixtures.submitted Fixtures.pending_row Hreach Hin eq_refl)
    as [stats [stats' [Hs [Hs' [Hcount [Hmonth _]]]]]].
  change (snd (post_payments_simulate 30 Fixtures.as_member
                 (mkSimulateBody (Contribution.id Fixtures.pending_row) true)
                 Fixtures.submitted))
    with Fixtures.paid in Hs'.
  assert (H0 : totalConfirmed stats = 0 /\ totalThisMonth stats = 0).
  { assert (E : stats_of 0 Fixtures.submitted
                = Some (mkContributionStats 0 0 1 (0 / 10)%Q))
      by reflexivity.
    rewrite E in Hs. injection Hs as <-. split; reflexivity. }
  destruct H0 as [Hc0 Hm0].
  split; [exact Hreach|]. split; [exact Hin|]. split; [reflexivity|].
  rewrite Hs, Hs'. simpl. rewrite Hcount, Hmonth, Hc0, Hm0.
  repeat split.
Defined.

(** ** From a submission to the listings *)



(** ** The dashboards against the server *)






(** X18. The admin's contributions table offers its two buttons for a
    pending contribution and for no other.  Pressing either one, as an
    admin, makes the contribution terminal, with the status of the button,
    so that its row offers no button any more: from the dashboard a
    contribution is decided at most once.  ["confirmed"] stores the time of
    the server as [confirmedAt] and the [TXN] number made from the browser's
    clock; ["failed"] stores neither. *)
Theorem dashboard_decides_once (c : Contribution.t) :
  (Dashboard.row_buttons c <> [] <-> Contribution.status c = "pending")
  /\ forall status clock now req db,
       In status (Dashboard.row_buttons c) ->
       find_contribution (Contribution.id c) db = Some c ->
       not_admin (caller_of req db) = false ->
       let sent := Dashboard.updateContributionStatus_mutation clock
                     (Contribution.id c) status in
       let out := patch_contribution_status now req (fst sent) (snd sent) db in
       exists c',
         statusCode (fst out) = 200
         /\ find_contribution (Contribution.id c) (snd out) = Some c'
         /\ Contribution.status c' = status
         /\ is_terminal c' = true
         /\ Dashboard.row_buttons c' = []
         /\ Contribution.confirmedAt c'
            = (if String.eqb status "confirmed" then Some now else None)
         /\ Contribution.transactionId c'
            = (if String.eqb status "confirmed"
               then Some ("TXN" ++ show_int clock)
               else Contribution.transactionId c).
Proof.
  unfold Dashboard.row_buttons. split.
  - destruct (String.eqb_spec (Contribution.status c) "pending");
      split; auto; try discriminate. intros H. now elim H.
  - intros status clock now req db Hbutton Hfind Hadmin. cbv zeta.
    set (sent := Dashboard.updateContributionStatus_mutation clock
                   (Contribution.id c) status).
    destruct (String.eqb (Contribution.status c) "pending"); [|destruct Hbutton].
    destruct (patch_by_admin_effect now req (fst sent) (snd sent) db Hadmin)
      as [H200 [_ [Hrows _]]].
    exists (set_status now (sb_status (snd sent)) (sb_transactionId (snd sent)) c).
    split; [exact H200|]. split.
    + unfold find_contribution. rewrite Hrows.
      now apply find_after_update.
    + destruct Hbutton as [<- | [<- | []]]; repeat split.
Qed.

(** Scenario A from the dashboard: the admin presses Confirm at 29 on the
    member's pending contribution, the server handles it at 30. *)
Lemma dashboard_decides_once_witness :
  In "confirmed" (Dashboard.row_buttons Fixtures.pending_row)
  /\ find_contribution 1 Fixtures.submitted = Some Fixtures.pending_row
  /\ not_admin (caller_of Fixtures.as_admin Fixtures.submitted) = false
  /\ find_contribution 1
       (snd (patch_contribution_status 30 Fixtures.as_admin 1
               (mkStatusBody "confirmed" (Some "TXN29")) Fixtures.submitted))
     = Some (Contribution.mk 1 "member-456" 5000000 "mtn" "confirmed"
               (Some "TXN29") None (Some 20) (Some 30))
  /\ Dashboard.row_buttons
       (Contribution.mk 1 "member-456" 5000000 "mtn" "confirmed"
          (Some "TXN29") None (Some 20) (Some 30))
     = [].
Proof.
  destruct (dashboard_decides_once Fixtures.pending_row) as [_ Hpress].
  destruct (Hpress "confirmed" 29 30 Fixtures.as_admin Fixtures.submitted)
    as [c' [_ [Hfind _]]];
    [left; reflexivity | reflexivity | reflexivity |].
  split; [left; reflexivity|]. split; [reflexivity|]. split; [reflexivity|].
  split; reflexivity.
Defined.

(** ** [updateMemberBalance] *)






(** ** Two more invariants *)

(** X20. In every reachable state a contribution that has a [confirmedAt]
    has the status ["confirmed"]: the timestamp is written only together
    with that status and erased by every other update.  (The converse is not
    an invariant: a submission may bring the status ["confirmed"] and is
    then stored without a timestamp.) *)
Theorem confirmedAt_only_when_confirmed (db : Database) (c : Contribution.t) :
  reachable db ->
  In c (contributions db) ->
  Contribution.confirmedAt c <> None ->
  Contribution.status c = "confirmed".
Proof.
  intros Hreach. revert c.
  induction Hreach as [members | call db Hdb IH]; intros c Hin Hat.
  - destruct Hin.
  - assert (Hupd : forall now id status tx,
               In c (contributions
                       (snd (updateContributionStatus now id status tx db))) ->
               Contribution.status c = "confirmed").
    { intros now id status tx Hc. simpl in Hc.
      apply in_map_iff in Hc as [r [<- Hr]].
      destruct (Contribution.id r =? id); [|now apply IH].
      simpl in Hat |- *.
      destruct (String.eqb_spec status "confirmed"); [assumption|].
      now elim Hat. }
    destruct (serve_written call db)
      as [ | rows | c1 entry Hid Hconf Haction | now id status tx
         | now id status tx entry Haction
         | now row balance entry Haction ].
    + exact (IH c Hin Hat).
    + exact (IH c Hin Hat).
    + simpl in Hin. apply in_app_or in Hin as [Hin | [<- | []]];
        [exact (IH c Hin Hat) | now elim Hat].
    + exact (Hupd now id status tx Hin).
    + exact (Hupd now id status tx Hin).
    + exact (IH c Hin Hat).
Qed.

(** The paid contribution; and the one submitted as ["confirmed"], which
    has the status without the timestamp. *)
Lemma confirmedAt_only_when_confirmed_witness :
  reachable Fixtures.paid
  /\ In Fixtures.paid_row (contributions Fixtures.paid)
  /\ Contribution.confirmedAt Fixtures.paid_row <> None
  /\ Contribution.status Fixtures.paid_row = "confirmed"
  /\ map (fun c => (Contribution.status c, Contribution.confirmedAt c))
       (contributions (snd Fixtures.submission_as_confirmed))
     = [("confirmed", None)].
Proof.
  assert (Hreach : reachable Fixtures.paid).
  { unfold Fixtures.paid, Fixtures.submitted.
    do 2 apply reachable_run. apply reachable_fresh. }
  assert (Hin : In Fixtures.paid_row (contributions Fixtures.paid))
    by (left; reflexivity).
  assert (Hat : Contribution.confirmedAt Fixtures.paid_row <> None)
    by discriminate.
  split; [exact Hreach|]. split; [exact Hin|]. split; [exact Hat|].
  split; [|reflexivity].
  exact (confirmedAt_only_when_confirmed _ _ Hreach Hin Hat).
Defined.

Lemma adjusted_by_admin (call : Call) (db : Database)
    (a : TreasuryAdjustment.t) :
  In a (treasuryAdjustments (serve call db)) ->
  In a (treasuryAdjustments db)
  \/ exists u, In u (users db)
       /\ User.id u = TreasuryAdjustment.adminId a
       /\ User.role u = "admin".
Proof.
  destruct call as [now req body | now req id body | now req body
                   | now req body | rows]; cbn [serve]; intros Hin.
  - left. now rewrite (proj1 (post_contributions_ledger now req body db)) in Hin.
  - left. destruct (not_admin (caller_of req db)) eqn:Hadmin.
    + now rewrite patch_by_other in Hin.
    + now rewrite patch_by_admin in Hin.
  - destruct (not_admin (caller_of req db)) eqn:Hadmin.
    + left. destruct (adjust_refused now req body db (or_introl Hadmin))
        as [_ Hdb]. now rewrite Hdb in Hin.
    + destruct (adjustment_input body) as [[[type amount] reason]|] eqn:Hinput.
      * destruct (adjust_by_admin_effect now req body db type amount reason
                    Hadmin Hinput) as [_ [_ [_ [Hadj _]]]].
        rewrite Hadj in Hin. apply in_app_or in Hin as [Hin | [<- | []]];
          [now left|]. right.
        unfold caller_of in Hadmin.
        destruct (find _ (users db)) as [u|] eqn:Hu; [|discriminate Hadmin].
        apply find_some in Hu as [Hu Hid]. apply String.eqb_eq in Hid.
        exists u. split; [exact Hu|]. split; [exact Hid|].
        simpl in Hadmin. apply negb_false_iff in Hadmin.
        now apply String.eqb_eq in Hadmin.
      * left. destruct (adjust_refused now req body db (or_intror Hinput))
          as [_ Hdb]. now rewrite Hdb in Hin.
  - left. now rewrite simulate_eq in Hin.
  - left. exact Hin.
Qed.

(** X21. Every adjustment in the table was booked by an admin.  Over any run
    of requests on a fresh deployment, each row of the adjustments table
    names as [adminId] a user whose role is ["admin"]; no request of a
    member, and none of a caller the users table does not know, ever leaves
    an adjustment. *)
Theorem adjustments_booked_by_admins
    (members : list User.t) (calls : list Call) (a : TreasuryAdjustment.t) :
  forallb is_request calls = true ->
  In a (treasuryAdjustments (run calls (fresh members))) ->
  exists u,
    In u members
    /\ User.id u = TreasuryAdjustment.adminId a
    /\ User.role u = "admin".
Proof.
  revert a. induction calls as [|call calls IH] using rev_ind;
    intros a Hcalls Hin.
  - destruct Hin.
  - rewrite forallb_app in Hcalls. apply andb_true_iff in Hcalls as [Hcalls _].
    rewrite run_snoc in Hin.
    destruct (adjusted_by_admin _ _ _ Hin) as [Hold | [u [Hu Hrole]]].
    + now apply IH.
    + exists u. split; [|exact Hrole].
      now rewrite (run_requests_users calls (fresh members) Hcalls) in Hu.
Qed.

(** The one adjustment of [Fixtures.ledger_calls] is the admin's. *)
Lemma adjustments_booked_by_admins_witness :
  forallb is_request Fixtures.ledger_calls = true
  /\ map TreasuryAdjustment.adminId
       (treasuryAdjustments Fixtures.funded_and_paid)
     = ["admin-123"]
  /\ exists u,
       In u [Fixtures.admin; Fixtures.member]
       /\ User.id u = "admin-123" /\ User.role u = "admin".
Proof.
  split; [reflexivity|]. split; [reflexivity|].
  apply (adjustments_booked_by_admins [Fixtures.admin; Fixtures.member]
           Fixtures.ledger_calls
           (TreasuryAdjustment.mk 1 "deposit" 5000000 "opening" "admin-123"
              (Some 10))
           eq_refl).
  left. reflexivity.
Defined.
